(** * LiteX-CNC quadrature encoder: a shallow embedding of
      [litexcnc/firmware/modules/encoder.py] and its verification.

    The gateware is written in Migen.  A module owns registers ([Signal]s
    assigned in [self.sync]) and wires ([Signal]s assigned in [self.comb]).
    On every clock tick all statements of the [sync] block are executed in
    order: every right-hand side and every [If] condition reads the values the
    registers had at the start of the tick, every assignment writes the value
    the register has after the tick, and of several assignments to the same
    register the last one executed wins.  A register nobody assigns keeps its
    value.  An assignment truncates its right-hand side to the width of the
    assigned signal. *)

From Stdlib Require Import ZArith Bool List Lia QArith Qround String.
Import ListNotations.
Local Open Scope Z_scope.

(** ** Migen values *)

Module Migen.

(** Truncation of [v] to a signed signal of [w] bits (two's complement). *)
Definition to_signed (w v : Z) : Z :=
  (v + 2 ^ (w - 1)) mod 2 ^ w - 2 ^ (w - 1).

(** Truncation of [v] to an unsigned signal of [w] bits. *)
Definition to_unsigned (w v : Z) : Z := Z.land v (Z.ones w).

(** Truncation of [v] to a signal of one bit. *)
Definition to_bit (v : Z) : bool := Z.testbit v 0.

(** [sig[i]] *)
Definition bit (sig : Z) (i : Z) : bool := Z.testbit sig i.

(** [sig[:n]], the [n] low bits *)
Definition low (n : Z) (sig : Z) : Z := Z.land sig (Z.ones n).

(** [Cat(b, rest)] for a one-bit [b]: [b] is bit 0, [rest] follows. *)
Definition Cat1 (b : bool) (rest : Z) : Z :=
  Z.lor (Z.b2z b) (Z.shiftl rest 1).

(** [Cat(l)] for a list of one-bit signals, first element at bit 0. *)
Fixpoint Cat (l : list bool) : Z :=
  match l with
  | [] => 0
  | b :: rest => Cat1 b (Cat rest)
  end.

End Migen.

Import Migen.

(** ** Configuration and pads *)

(** Modelled from the spec: the class [EncoderInstanceConfig] of
    [litexcnc/config/modules/encoder.py] is not part of the sources at hand;
    the fields are the ones [encoder.py] reads: [reset_value], the optional
    bounds [min_value] and [max_value], and the optional index pin [pin_Z]
    (here [config_pin_Z], the name [pin_Z] being the module's wire).
    The spec types the three values as signed 32-bit integers; they are
    integers here and the range is stated by [int32] where it matters. *)
Record EncoderInstanceConfig : Type := {
  reset_value : Z;
  min_value : option Z;
  max_value : option Z;
  config_pin_Z : option string
}.

(** Modelled from the spec: [EncoderModuleConfig], of which [encoder.py]
    only reads the list [instances]. *)
Record EncoderModuleConfig : Type := {
  instances : list EncoderInstanceConfig
}.

Definition int32 (v : Z) : Prop := - 2 ^ 31 <= v < 2 ^ 31.

(** The pads of one encoder: [pads_layout], where [Encoder_Z] is present only
    when the platform extension declares it ([hasattr(pads, 'Encoder_Z')]). *)
Record Pads : Type := {
  Encoder_A : bool;
  Encoder_B : bool;
  Encoder_Z : option bool
}.

(** ** The registers of [EncoderModule] *)

Definition COUNTER_SIZE : Z := 32.

Record EncoderModule : Type := {
  index_enable : bool;
  counter : Z;
  index_pulse : bool;
  reset_index_pulse : bool;
  reset : bool;
  pin_A_delayed : Z;
  pin_B_delayed : Z;
  pin_Z_delayed : Z
}.

Definition set_index_enable (v : bool) (s : EncoderModule) : EncoderModule :=
  {| index_enable := v; counter := counter s; index_pulse := index_pulse s;
     reset_index_pulse := reset_index_pulse s; reset := reset s;
     pin_A_delayed := pin_A_delayed s; pin_B_delayed := pin_B_delayed s;
     pin_Z_delayed := pin_Z_delayed s |}.

Definition set_counter (v : Z) (s : EncoderModule) : EncoderModule :=
  {| index_enable := index_enable s; counter := v; index_pulse := index_pulse s;
     reset_index_pulse := reset_index_pulse s; reset := reset s;
     pin_A_delayed := pin_A_delayed s; pin_B_delayed := pin_B_delayed s;
     pin_Z_delayed := pin_Z_delayed s |}.

Definition set_index_pulse (v : bool) (s : EncoderModule) : EncoderModule :=
  {| index_enable := index_enable s; counter := counter s; index_pulse := v;
     reset_index_pulse := reset_index_pulse s; reset := reset s;
     pin_A_delayed := pin_A_delayed s; pin_B_delayed := pin_B_delayed s;
     pin_Z_delayed := pin_Z_delayed s |}.

Definition set_reset_index_pulse (v : bool) (s : EncoderModule) : EncoderModule :=
  {| index_enable := index_enable s; counter := counter s;
     index_pulse := index_pulse s;
     reset_index_pulse := v; reset := reset s;
     pin_A_delayed := pin_A_delayed s; pin_B_delayed := pin_B_delayed s;
     pin_Z_delayed := pin_Z_delayed s |}.

Definition set_reset (v : bool) (s : EncoderModule) : EncoderModule :=
  {| index_enable := index_enable s; counter := counter s;
     index_pulse := index_pulse s;
     reset_index_pulse := reset_index_pulse s; reset := v;
     pin_A_delayed := pin_A_delayed s; pin_B_delayed := pin_B_delayed s;
     pin_Z_delayed := pin_Z_delayed s |}.

Definition set_pin_A_delayed (v : Z) (s : EncoderModule) : EncoderModule :=
  {| index_enable := index_enable s; counter := counter s;
     index_pulse := index_pulse s;
     reset_index_pulse := reset_index_pulse s; reset := reset s;
     pin_A_delayed := v; pin_B_delayed := pin_B_delayed s;
     pin_Z_delayed := pin_Z_delayed s |}.

Definition set_pin_B_delayed (v : Z) (s : EncoderModule) : EncoderModule :=
  {| index_enable := index_enable s; counter := counter s;
     index_pulse := index_pulse s;
     reset_index_pulse := reset_index_pulse s; reset := reset s;
     pin_A_delayed := pin_A_delayed s; pin_B_delayed := v;
     pin_Z_delayed := pin_Z_delayed s |}.

Definition set_pin_Z_delayed (v : Z) (s : EncoderModule) : EncoderModule :=
  {| index_enable := index_enable s; counter := counter s;
     index_pulse := index_pulse s;
     reset_index_pulse := reset_index_pulse s; reset := reset s;
     pin_A_delayed := pin_A_delayed s; pin_B_delayed := pin_B_delayed s;
     pin_Z_delayed := v |}.

(** ** Statements of a [sync] block *)

(** A statement maps the registers at the start of the tick ([cur]) and the
    registers written so far ([nxt]) to the registers written after it. *)
Definition stmt : Type := EncoderModule -> EncoderModule -> EncoderModule.

Fixpoint exec (body : list stmt) (cur nxt : EncoderModule) : EncoderModule :=
  match body with
  | [] => nxt
  | st :: rest => exec rest cur (st cur nxt)
  end.

Definition If (cond : EncoderModule -> bool) (body : list stmt) : stmt :=
  fun cur nxt => if cond cur then exec body cur nxt else nxt.

Definition If_Else (cond : EncoderModule -> bool) (body other : list stmt) : stmt :=
  fun cur nxt => if cond cur then exec body cur nxt else exec other cur nxt.

(** [signal.eq(e)], one definition per register, with the truncation to the
    register's width. *)
Definition index_enable_eq (e : EncoderModule -> Z) : stmt :=
  fun cur nxt => set_index_enable (to_bit (e cur)) nxt.
Definition counter_eq (e : EncoderModule -> Z) : stmt :=
  fun cur nxt => set_counter (to_signed COUNTER_SIZE (e cur)) nxt.
Definition index_pulse_eq (e : EncoderModule -> Z) : stmt :=
  fun cur nxt => set_index_pulse (to_bit (e cur)) nxt.
Definition reset_index_pulse_eq (e : EncoderModule -> Z) : stmt :=
  fun cur nxt => set_reset_index_pulse (to_bit (e cur)) nxt.
Definition pin_A_delayed_eq (e : EncoderModule -> Z) : stmt :=
  fun cur nxt => set_pin_A_delayed (to_unsigned 3 (e cur)) nxt.
Definition pin_B_delayed_eq (e : EncoderModule -> Z) : stmt :=
  fun cur nxt => set_pin_B_delayed (to_unsigned 3 (e cur)) nxt.
Definition pin_Z_delayed_eq (e : EncoderModule -> Z) : stmt :=
  fun cur nxt => set_pin_Z_delayed (to_unsigned 3 (e cur)) nxt.

(** ** [EncoderModule.__init__] *)

(** The wires [pin_A], [pin_B] and [pin_Z] of the [comb] block. *)
Definition pin_A (pads : Pads) : bool := Encoder_A pads.
Definition pin_B (pads : Pads) : bool := Encoder_B pads.
Definition pin_Z (pads : Pads) : bool :=
  match Encoder_Z pads with
  | Some z => z
  | None => false
  end.

(** The wires [count_ena] and [count_dir] of the [comb] block. *)
Definition count_ena (s : EncoderModule) : bool :=
  xorb (xorb (xorb (bit (pin_A_delayed s) 1) (bit (pin_A_delayed s) 2))
             (bit (pin_B_delayed s) 1))
       (bit (pin_B_delayed s) 2).

Definition count_dir (s : EncoderModule) : bool :=
  xorb (bit (pin_A_delayed s) 1) (bit (pin_B_delayed s) 2).

(** [pin_Z_delayed[1] & ~pin_Z_delayed[2]], the rising flank of the index. *)
Definition index_rising (s : EncoderModule) : bool :=
  bit (pin_Z_delayed s) 1 && negb (bit (pin_Z_delayed s) 2).

Definition create_counter_increase (cfg : EncoderInstanceConfig) : stmt :=
  match max_value cfg with
  | Some hi =>
      If (fun s => counter s <? hi)
         [ counter_eq (fun s => counter s + 1) ]
  | None => counter_eq (fun s => counter s + 1)
  end.

Definition create_counter_decrease (cfg : EncoderInstanceConfig) : stmt :=
  match min_value cfg with
  | Some lo =>
      If (fun s => counter s >? lo)
         [ counter_eq (fun s => counter s - 1) ]
  | None => counter_eq (fun s => counter s - 1)
  end.

(** The statements of [self.sync], in the order of the source. *)
Definition sync_block (cfg : EncoderInstanceConfig) (pads : Pads) : list stmt :=
  [ pin_A_delayed_eq (fun s => Cat1 (pin_A pads) (low 2 (pin_A_delayed s)));
    pin_B_delayed_eq (fun s => Cat1 (pin_B pads) (low 2 (pin_B_delayed s)));
    pin_Z_delayed_eq (fun s => Cat1 (pin_Z pads) (low 2 (pin_Z_delayed s)));
    If (fun s => bit (pin_Z_delayed s) 1 && negb (bit (pin_Z_delayed s) 2))
       [ index_pulse_eq (fun _ => 1) ];
    If (fun s => reset_index_pulse s && index_pulse s)
       [ index_pulse_eq (fun _ => reset_value cfg);
         reset_index_pulse_eq (fun _ => 0) ];
    If (fun s => reset s
                 || (index_enable s && bit (pin_Z_delayed s) 1
                     && negb (bit (pin_Z_delayed s) 2)))
       [ counter_eq (fun _ => reset_value cfg);
         index_enable_eq (fun _ => 0) ];
    If (fun s => xorb (xorb (xorb (bit (pin_A_delayed s) 1)
                                  (bit (pin_A_delayed s) 2))
                            (bit (pin_B_delayed s) 1))
                      (bit (pin_B_delayed s) 2)
                 && negb (index_enable s && bit (pin_Z_delayed s) 1
                          && negb (bit (pin_Z_delayed s) 2)))
       [ If_Else (fun s => xorb (bit (pin_A_delayed s) 1)
                                (bit (pin_B_delayed s) 2))
                 [ create_counter_increase cfg ]
                 [ create_counter_decrease cfg ] ]
  ].

(** One clock tick of the module. *)
Definition sync (cfg : EncoderInstanceConfig) (pads : Pads)
  (s : EncoderModule) : EncoderModule :=
  exec (sync_block cfg pads) s s.

(** The registers after power-up: every [Signal] holds its [reset] value,
    which is zero except for the counter.  The counter is created with
    [reset=encoder_config.reset_value]: the value is taken as given, and
    only an assignment truncates to the counter's width. *)
Definition power_up (cfg : EncoderInstanceConfig) : EncoderModule :=
  {| index_enable := false;
     counter := reset_value cfg;
     index_pulse := false;
     reset_index_pulse := false;
     reset := false;
     pin_A_delayed := 0;
     pin_B_delayed := 0;
     pin_Z_delayed := 0 |}.

(** ** The host side: [create_from_config] and the MMIO registers *)

(** What the host drives into the three flags of one instance before a tick.
    [None] leaves the register as the module left it.  In the SoC the flags
    are loaded from the MMIO storage ([create_from_config], see [hookup]); in
    the module's own simulation the test bench sets them.  Either way a tick
    starts with flag values of the host's choosing, or with the ones the
    previous tick left. *)
Record HostWrite : Type := {
  w_reset : option bool;
  w_index_enable : option bool;
  w_reset_index_pulse : option bool
}.

Definition drive {A : Type} (w : option A) (old : A) : A :=
  match w with
  | Some v => v
  | None => old
  end.

Definition host_write (w : HostWrite) (s : EncoderModule) : EncoderModule :=
  set_reset (drive (w_reset w) (reset s))
    (set_index_enable (drive (w_index_enable w) (index_enable s))
       (set_reset_index_pulse
          (drive (w_reset_index_pulse w) (reset_index_pulse s)) s)).

Definition no_write : HostWrite :=
  {| w_reset := None; w_index_enable := None; w_reset_index_pulse := None |}.

(** One tick seen from outside: the host's flags, then the clock edge. *)
Definition tick (cfg : EncoderInstanceConfig) (i : HostWrite * Pads)
  (s : EncoderModule) : EncoderModule :=
  sync cfg (snd i) (host_write (fst i) s).

Fixpoint run (cfg : EncoderInstanceConfig) (trace : list (HostWrite * Pads))
  (s : EncoderModule) : EncoderModule :=
  match trace with
  | [] => s
  | i :: rest => run cfg rest (tick cfg i s)
  end.

(** [int(math.ceil(float(len(config.instances))/32))*32]: the quotient is
    taken in the rationals, which is what the float division computes for
    every length below 2^53. *)
Definition packed_size (config : EncoderModuleConfig) : Z :=
  (Qceiling (inject_Z (Z.of_nat (List.length (instances config))) / inject_Z 32)
   * 32)%Z.

(** The exceptions of the Python code. *)
Inductive Exception : Type :=
| KeyError (msg : string)
| AttributeError (attr : string)
| Raised (what : string).

(** LiteX's [CSRStatus(size=...)] and [CSRStorage(size=...)]: the register
    is built on a Migen [Signal] of [size] bits, whose constructor raises
    for a width that is not strictly positive. *)
Definition new_CSR (size : Z) : Exception + Z :=
  if 0 <? size then inr size else inl (Raised "Signal width").

(** The sizes [add_mmio_read_registers] gives the status registers. *)
Record ReadRegisters : Type := {
  encoder_index_pulse_size : Z;
  encoder_counter_size : list Z
}.

(** [add_mmio_read_registers]: the registers it has added to [mmio] and the
    exception it ends with, if any.  Nothing is created when [config] is
    absent ([if not config: return]); a configuration with an empty list of
    instances is not skipped and asks for a register of size 0. *)
Definition add_mmio_read_registers (config : option EncoderModuleConfig)
  : option ReadRegisters * option Exception :=
  match config with
  | None => (None, None)
  | Some c =>
      match new_CSR (packed_size c) with
      | inl e => (None, Some e)
      | inr size =>
          (Some {| encoder_index_pulse_size := size;
                   encoder_counter_size :=
                     map (fun _ => COUNTER_SIZE)
                       (seq 0 (List.length (instances c))) |},
           None)
      end
  end.

(** The sizes [add_mmio_write_registers] gives the storage registers. *)
Record WriteRegisters : Type := {
  encoder_index_enable_size : Z;
  encoder_reset_index_pulse_size : Z
}.

(** [add_mmio_write_registers], in the same way; the first register that
    cannot be built ends the call. *)
Definition add_mmio_write_registers (config : option EncoderModuleConfig)
  : option WriteRegisters * option Exception :=
  match config with
  | None => (None, None)
  | Some c =>
      match new_CSR (packed_size c) with
      | inl e => (None, Some e)
      | inr size_enable =>
          match new_CSR (packed_size c) with
          | inl e => (None, Some e)
          | inr size_reset =>
              (Some {| encoder_index_enable_size := size_enable;
                       encoder_reset_index_pulse_size := size_reset |},
               None)
          end
      end
  end.

(** Modelled from the spec: the class of [soc.MMIO_inst] is not part of the
    sources at hand.  These are the storage registers [create_from_config]
    reads from it: the shared [reset] and the two packed words created by
    [add_mmio_write_registers]. *)
Record MMIO : Type := {
  reset_storage : Z;
  encoder_index_enable_storage : Z;
  encoder_reset_index_pulse_storage : Z
}.



(** [create_from_config], the list [index_pulse]: the flag of every instance
    with an index pin, [Constant(0)] for the others. *)
Fixpoint index_pulse_flags (cfgs : list EncoderInstanceConfig)
  (encoders : list EncoderModule) : list bool :=
  match cfgs, encoders with
  | c :: cfgs', e :: encoders' =>
      match config_pin_Z c with
      | Some _ => index_pulse e
      | None => false
      end :: index_pulse_flags cfgs' encoders'
  | _, _ => []
  end.


(** ** Derived notions used in the statements *)

(** The condition of the reset branch. *)
Definition reset_trigger (s : EncoderModule) : bool :=
  reset s || (index_enable s && index_rising s).

(** The condition of the counting branch. *)
Definition count_event (s : EncoderModule) : bool :=
  count_ena s && negb (index_enable s && index_rising s).

(** The counter a tick leaves when the counting branch does not assign. *)
Definition counter_kept (cfg : EncoderInstanceConfig) (s : EncoderModule) : Z :=
  if reset_trigger s then to_signed COUNTER_SIZE (reset_value cfg)
  else counter s.

Definition line_changed (hist : Z) : bool :=
  xorb (bit hist 1) (bit hist 2).

(** The four host-visible registers of an instance. *)
Definition host_view (s : EncoderModule) : Z * bool * bool * bool :=
  (counter s, index_enable s, index_pulse s, reset_index_pulse s).

Definition assert_reset : HostWrite :=
  {| w_reset := Some true; w_index_enable := None;
     w_reset_index_pulse := None |}.

Definition deassert_reset : HostWrite :=
  {| w_reset := Some false; w_index_enable := None;
     w_reset_index_pulse := None |}.

Definition assert_reset_index_pulse : HostWrite :=
  {| w_reset := None; w_index_enable := None;
     w_reset_index_pulse := Some true |}.

(** No tick of the run starts with a rising flank of the index. *)
Fixpoint no_index_edge (cfg : EncoderInstanceConfig)
  (trace : list (HostWrite * Pads)) (s : EncoderModule) : bool :=
  match trace with
  | [] => true
  | i :: rest =>
      negb (index_rising (host_write (fst i) s))
      && no_index_edge cfg rest (tick cfg i s)
  end.

(** [Some n] when the run has exactly [n] ticks with a count-enable edge,
    each of them in the forward direction, and no tick that resets. *)
Fixpoint forward_edges (cfg : EncoderInstanceConfig)
  (trace : list (HostWrite * Pads)) (s : EncoderModule) : option nat :=
  match trace with
  | [] => Some O
  | i :: rest =>
      let s0 := host_write (fst i) s in
      if reset_trigger s0 then None
      else if count_ena s0 then
             if count_dir s0
             then option_map S (forward_edges cfg rest (tick cfg i s))
             else None
           else forward_edges cfg rest (tick cfg i s)
  end.

(** ** Concrete configurations, pads and register values *)

Definition config_of (rv : Z) (lo hi : option Z) : EncoderInstanceConfig :=
  {| reset_value := rv; min_value := lo; max_value := hi;
     config_pin_Z := Some "Z"%string |}.

Definition pads_of (a b z : bool) : Pads :=
  {| Encoder_A := a; Encoder_B := b; Encoder_Z := Some z |}.

Definition registers (ie : bool) (c : Z) (ip rip r : bool) (a b z : Z)
  : EncoderModule :=
  {| index_enable := ie; counter := c; index_pulse := ip;
     reset_index_pulse := rip; reset := r;
     pin_A_delayed := a; pin_B_delayed := b; pin_Z_delayed := z |}.

(** A quadrature signal turning forward, one edge per tick: line A shows
    1 1 0 0 and line B shows 0 1 1 0, repeated, for [n] ticks; the host
    writes nothing. *)
Definition quadrature_forward (n : nat) : list (HostWrite * Pads) :=
  map (fun i =>
         (no_write,
          pads_of (nth (i mod 4) [true; true; false; false] false)
                  (nth (i mod 4) [false; true; true; false] false)
                  false))
      (seq 0 n).

(** The same pads with the host holding [reset] set on every tick. *)
Definition reset_held (trace : list (HostWrite * Pads))
  : list (HostWrite * Pads) :=
  map (fun i => (assert_reset, snd i)) trace.

(** Forty instances, none with bounds. *)
Definition forty_encoders : EncoderModuleConfig :=
  {| instances := repeat (config_of 0 None None) 40 |}.

(** ** Runs, seen edge by edge *)

(** [Some d] when no tick of the run resets the counter; [d] is then the
    number of forward count-enable edges minus the number of backward
    ones. *)
Fixpoint net_count (cfg : EncoderInstanceConfig)
  (trace : list (HostWrite * Pads)) (s : EncoderModule) : option Z :=
  match trace with
  | [] => Some 0
  | i :: rest =>
      let s0 := host_write (fst i) s in
      if reset_trigger s0 then None
      else option_map
             (Z.add (if count_ena s0
                     then if count_dir s0 then 1 else -1
                     else 0))
             (net_count cfg rest (tick cfg i s))
  end.

(** No tick of the run starts with [reset_index_pulse] set. *)
Fixpoint no_ack_request (cfg : EncoderInstanceConfig)
  (trace : list (HostWrite * Pads)) (s : EncoderModule) : bool :=
  match trace with
  | [] => true
  | i :: rest =>
      negb (reset_index_pulse (host_write (fst i) s))
      && no_ack_request cfg rest (tick cfg i s)
  end.

(** ** [create_from_config]: the pads and the SoC's own [sync] statements *)

(** [soc.platform.request("encoder", index)] after [add_extension]: the
    record has the subsignal [Encoder_Z] only for an instance whose [pin_Z]
    is configured. *)
Definition request_pads (cfg : EncoderInstanceConfig) (a b z : bool) : Pads :=
  {| Encoder_A := a;
     Encoder_B := b;
     Encoder_Z := match config_pin_Z cfg with
                  | Some _ => Some z
                  | None => None
                  end |}.

Definition reset_eq (e : EncoderModule -> Z) : stmt :=
  fun cur nxt => set_reset (to_bit (e cur)) nxt.

(** The statements [create_from_config] adds to [soc.sync] for the flags of
    instance [index], in the order of the source ([index_enable] is assigned
    twice). *)
Definition hookup_block (mmio : MMIO) (index : nat) : list stmt :=
  [ reset_eq (fun _ => reset_storage mmio);
    index_enable_eq
      (fun _ => Z.b2z (bit (encoder_index_enable_storage mmio)
                         (Z.of_nat index)));
    reset_index_pulse_eq
      (fun _ => Z.b2z (bit (encoder_reset_index_pulse_storage mmio)
                         (Z.of_nat index)));
    index_enable_eq
      (fun _ => Z.b2z (bit (encoder_index_enable_storage mmio)
                         (Z.of_nat index))) ].

(** The SoC and the encoder, a submodule of it, share the clock domain, so
    their statements end up in one block.  [parent_first] tells whether the
    SoC's statements come before the encoder's in it; the properties below
    that mention it hold for both orders. *)
Definition soc_sync_block (parent_first : bool) (mmio : MMIO) (index : nat)
  (cfg : EncoderInstanceConfig) (pads : Pads) : list stmt :=
  if parent_first
  then hookup_block mmio index ++ sync_block cfg pads
  else sync_block cfg pads ++ hookup_block mmio index.

(** One encoder together with its counter status register
    [encoder_<index>_counter]. *)
Record EncoderSlot : Type := {
  encoder : EncoderModule;
  encoder_counter_status : Z
}.

(** One clock tick of the SoC, for instance [index]: the merged block on the
    encoder's registers and
    [encoder_<index>_counter.status.eq(encoder.counter)] on the status
    register, which has [COUNTER_SIZE] bits and no sign. *)
Definition soc_sync (parent_first : bool) (mmio : MMIO) (index : nat)
  (cfg : EncoderInstanceConfig) (pads : Pads) (st : EncoderSlot)
  : EncoderSlot :=
  {| encoder :=
       exec (soc_sync_block parent_first mmio index cfg pads)
            (encoder st) (encoder st);
     encoder_counter_status := to_unsigned COUNTER_SIZE (counter (encoder st)) |}.

(** A run of instance [cfg] in the SoC: every tick gets its pads from the
    platform. *)
Definition requested (cfg : EncoderInstanceConfig)
  (inputs : list (HostWrite * (bool * bool * bool)))
  : list (HostWrite * Pads) :=
  map (fun i =>
         (fst i,
          request_pads cfg (fst (fst (snd i))) (snd (fst (snd i)))
            (snd (snd i))))
      inputs.

(** ** [connections/__init__.py] *)

Record Connection : Type := {
  connection_type : string
}.

(** Modelled from the spec: the firmware configuration class is not part of
    the sources at hand.  [add_connection] reads its list [connections] and,
    in the error message, its attribute [connection], which the class may or
    may not have. *)
Record FirmwareConfig : Type := {
  connections : list Connection;
  connection : option Connection
}.

Section Connections.

(** The SoC under construction and the two functions [add_etherbone] and
    [add_spi], imported from modules that are not part of the sources at
    hand.  A call changes the SoC and may raise. *)
Variable SoC : Type.
Variable add_etherbone : SoC -> Connection -> SoC * option Exception.
Variable add_spi : SoC -> Connection -> SoC * option Exception.

(** The dictionary [CONNECTION_MAPPING]. *)
Definition CONNECTION_MAPPING
  : list (string * (SoC -> Connection -> SoC * option Exception)) :=
  [ ("etherbone"%string, add_etherbone); ("spi"%string, add_spi) ].

Fixpoint lookup {V : Type} (key : string) (d : list (string * V)) : option V :=
  match d with
  | [] => None
  | (k, v) :: rest => if String.eqb key k then Some v else lookup key rest
  end.

(** The body of the [for] loop of [add_connection], over the connections
    still to be added. *)
Fixpoint add_connection_loop (config : FirmwareConfig)
  (todo : list Connection) (soc : SoC) : SoC * option Exception :=
  match todo with
  | [] => (soc, None)
  | c :: rest =>
      match lookup (connection_type c) CONNECTION_MAPPING with
      | None =>
          match connection config with
          | None => (soc, Some (AttributeError "connection"))
          | Some other =>
              (soc,
               Some (KeyError
                       ("Unknown connection type '"
                        ++ connection_type other ++ "'")))
          end
      | Some add =>
          match add soc c with
          | (soc', Some e) => (soc', Some e)
          | (soc', None) => add_connection_loop config rest soc'
          end
      end
  end.

Definition add_connection (soc : SoC) (config : FirmwareConfig)
  : SoC * option Exception :=
  add_connection_loop config (connections config) soc.

(** The calls [add_connection] makes for a list of connections of known
    types, none of which raises. *)
Fixpoint added (todo : list Connection) (soc : SoC) : SoC :=
  match todo with
  | [] => soc
  | c :: rest =>
      match lookup (connection_type c) CONNECTION_MAPPING with
      | Some add => added rest (fst (add soc c))
      | None => soc
      end
  end.

(** Every connection is of a known type and its call does not raise, the
    calls being made one after the other from [soc]. *)
Fixpoint all_added (todo : list Connection) (soc : SoC) : Prop :=
  match todo with
  | [] => True
  | c :: rest =>
      match lookup (connection_type c) CONNECTION_MAPPING with
      | Some add => snd (add soc c) = None /\ all_added rest (fst (add soc c))
      | None => False
      end
  end.

End Connections.

(** * Properties *)

(** ** Truncation *)

Lemma to_signed_int32 (v : Z) : int32 v -> to_signed COUNTER_SIZE v = v.
Proof.
  unfold int32, to_signed, COUNTER_SIZE. intros H.
  change (2 ^ (32 - 1)) with (2 ^ 31).
  rewrite Z.mod_small; lia.
Qed.

Lemma to_signed_range (v : Z) : int32 (to_signed COUNTER_SIZE v).
Proof.
  unfold int32, to_signed, COUNTER_SIZE.
  change (2 ^ (32 - 1)) with (2 ^ 31).
  pose proof (Z.mod_pos_bound (v + 2 ^ 31) (2 ^ 32) ltac:(lia)). lia.
Qed.

Lemma to_bit_odd (v : Z) : to_bit v = Z.odd v.
Proof. unfold to_bit. apply Z.bit0_odd. Qed.

(** ** What one tick does to every register *)

Lemma push_if {A B : Type} (f : A -> B) (b : bool) (x y : A) :
  f (if b then x else y) = if b then f x else f y.
Proof. destruct b; reflexivity. Qed.

Lemma if_same {A : Type} (b : bool) (x : A) : (if b then x else x) = x.
Proof. destruct b; reflexivity. Qed.

(** [sync_field f] rewrites [f (sync cfg pads s)], for a register [f], into
    the conditions and right-hand sides of the statements that assign [f]. *)
Ltac sync_field f :=
  unfold sync, sync_block; cbn [exec];
  unfold If, If_Else, create_counter_increase, create_counter_decrease;
  repeat match goal with
    | |- context [match max_value ?c with _ => _ end] => destruct (max_value c)
    | |- context [match min_value ?c with _ => _ end] => destruct (min_value c)
    end;
  unfold If; cbn [exec];
  unfold index_enable_eq, counter_eq, index_pulse_eq, reset_index_pulse_eq,
    pin_A_delayed_eq, pin_B_delayed_eq, pin_Z_delayed_eq;
  repeat (rewrite ?(push_if f);
          cbn [f set_index_enable set_counter set_index_pulse
                 set_reset_index_pulse set_reset set_pin_A_delayed
                 set_pin_B_delayed set_pin_Z_delayed];
          rewrite ?if_same);
  change (to_bit 1) with true; change (to_bit 0) with false;
  unfold counter_kept, reset_trigger, count_event, count_ena, count_dir,
    index_rising.

Ltac bool_cases :=
  repeat match goal with
    | |- context [if ?b then _ else _] => destruct b eqn:?
    end;
  try reflexivity; try discriminate.

Ltac sync_cases s :=
  repeat match goal with
    | |- context [bit ?x ?i] => destruct (bit x i)
    end;
  repeat match goal with
    | |- context [reset s] => destruct (reset s)
    | |- context [index_enable s] => destruct (index_enable s)
    | |- context [index_pulse s] => destruct (index_pulse s)
    | |- context [reset_index_pulse s] => destruct (reset_index_pulse s)
    end;
  cbn [andb orb negb xorb];
  bool_cases.

Lemma sync_index_pulse cfg pads s :
  index_pulse (sync cfg pads s) =
    if reset_index_pulse s && index_pulse s then to_bit (reset_value cfg)
    else if index_rising s then true
    else index_pulse s.
Proof. sync_field index_pulse; sync_cases s. Qed.

Lemma sync_reset_index_pulse cfg pads s :
  reset_index_pulse (sync cfg pads s) =
    if reset_index_pulse s && index_pulse s then false
    else reset_index_pulse s.
Proof. sync_field reset_index_pulse; sync_cases s. Qed.

Lemma sync_index_enable cfg pads s :
  index_enable (sync cfg pads s) =
    if reset_trigger s then false else index_enable s.
Proof. sync_field index_enable; sync_cases s. Qed.

Lemma sync_reset cfg pads s : reset (sync cfg pads s) = reset s.
Proof. sync_field reset; sync_cases s. Qed.

Lemma sync_pin_A_delayed cfg pads s :
  pin_A_delayed (sync cfg pads s) =
    to_unsigned 3 (Cat1 (pin_A pads) (low 2 (pin_A_delayed s))).
Proof. sync_field pin_A_delayed; sync_cases s. Qed.

Lemma sync_pin_B_delayed cfg pads s :
  pin_B_delayed (sync cfg pads s) =
    to_unsigned 3 (Cat1 (pin_B pads) (low 2 (pin_B_delayed s))).
Proof. sync_field pin_B_delayed; sync_cases s. Qed.

Lemma sync_pin_Z_delayed cfg pads s :
  pin_Z_delayed (sync cfg pads s) =
    to_unsigned 3 (Cat1 (pin_Z pads) (low 2 (pin_Z_delayed s))).
Proof. sync_field pin_Z_delayed; sync_cases s. Qed.

Lemma sync_counter cfg pads s :
  counter (sync cfg pads s) =
    if count_event s then
      if count_dir s then
        match max_value cfg with
        | Some hi => if counter s <? hi
                     then to_signed COUNTER_SIZE (counter s + 1)
                     else counter_kept cfg s
        | None => to_signed COUNTER_SIZE (counter s + 1)
        end
      else
        match min_value cfg with
        | Some lo => if counter s >? lo
                     then to_signed COUNTER_SIZE (counter s - 1)
                     else counter_kept cfg s
        | None => to_signed COUNTER_SIZE (counter s - 1)
        end
    else counter_kept cfg s.
Proof.
  sync_field counter; sync_cases s.
Qed.

(** ** The reset branch and the counting branch *)

(** With no bounds configured, a tick that starts with [reset] set and a
    count-enable edge (and no index-triggered reset) leaves the old counter
    plus or minus one: the count assignment is executed after the reset
    assignment and wins. *)
Lemma reset_with_count_edge cfg pads s :
  min_value cfg = None -> max_value cfg = None ->
  reset s = true -> count_event s = true ->
  counter (sync cfg pads s) =
    to_signed COUNTER_SIZE
      (if count_dir s then counter s + 1 else counter s - 1).
Proof.
  intros Hlo Hhi _ Hev. rewrite sync_counter, Hev, Hlo, Hhi.
  destruct (count_dir s); reflexivity.
Qed.

(** C1: a tick that starts with the host reset flag set and a count-enable
    edge present should end with the counter at [reset_value].  The code does
    not do so: with [reset_value = 0], counter 7, [reset] set and a forward
    edge on line A, the tick ends with the counter at 8.  Likewise, from
    power-up, fourteen ticks of a forward quadrature signal with [reset] held
    all the time count their twelve edges. *)
Theorem C1_reset_overridden_by_count :
  let cfg := config_of 0 None None in
  let s := registers false 7 false false true 2 0 0 in
  reset s = true /\ count_ena s = true /\
  counter (sync cfg (pads_of true false false) s) = 8 /\
  counter (sync cfg (pads_of true false false) s) <> reset_value cfg /\
  counter (run cfg (reset_held (quadrature_forward 14)) (power_up cfg)) = 12.
Proof.
  cbv zeta. repeat split; try reflexivity; try discriminate.
Qed.

(** ** The index pulse and its acknowledgement *)

(** Once the pulse is down it stays down as long as no index flank comes,
    whatever the host writes. *)
Lemma index_pulse_stays_low cfg trace : forall s,
  index_pulse s = false ->
  no_index_edge cfg trace s = true ->
  index_pulse (run cfg trace s) = false.
Proof.
  induction trace as [|i rest IH]; intros s Hip Hq; [exact Hip|].
  cbn [run]. cbn [no_index_edge] in Hq.
  apply andb_true_iff in Hq as [Hr Hq]. apply negb_true_iff in Hr.
  apply IH; [|exact Hq].
  unfold tick. rewrite sync_index_pulse, Hr.
  replace (index_pulse (host_write (fst i) s)) with false
    by (symmetry; exact Hip).
  rewrite andb_false_r. reflexivity.
Qed.

(** With an even [reset_value] the acknowledgement does clear the pulse, and
    a repeated acknowledgement without a new flank leaves it cleared. *)
Lemma ack_consumed_even_reset_value cfg pads trace s :
  Z.even (reset_value cfg) = true ->
  reset_index_pulse s = true -> index_pulse s = true ->
  no_index_edge cfg trace (sync cfg pads s) = true ->
  index_pulse (run cfg trace (sync cfg pads s)) = false.
Proof.
  intros Hev Hrip Hip Hq. apply index_pulse_stays_low; [|exact Hq].
  rewrite sync_index_pulse, Hrip, Hip. cbn [andb].
  rewrite to_bit_odd, <- Z.negb_even, Hev. reflexivity.
Qed.

(** C2: after a tick that starts with [reset_index_pulse] and a pending
    [index_pulse], asserting [reset_index_pulse] again without a new index
    flank should leave [index_pulse] false.  With [reset_value = 1] the code
    leaves it true: the acknowledgement writes [reset_value], not 0. *)
Theorem C2_ack_keeps_pulse_for_odd_reset_value :
  let cfg := config_of 1 None None in
  let s := registers false 1 true true false 0 0 0 in
  let quiet := pads_of false false false in
  let trace := [(no_write, quiet); (assert_reset_index_pulse, quiet)] in
  reset_index_pulse s = true /\ index_pulse s = true /\
  no_index_edge cfg trace s = true /\
  index_pulse (tick cfg (no_write, quiet) s) = true /\
  index_pulse (run cfg trace s) = true.
Proof. cbv zeta. repeat split; reflexivity. Qed.

(** C3, as stated: some tick starts with [reset_index_pulse] set and ends
    with it still set (no pulse was pending). *)
Lemma C3_request_persists_without_pulse :
  let cfg := config_of 0 None None in
  let s := registers false 0 false true false 0 0 0 in
  reset_index_pulse s = true /\
  reset_index_pulse (sync cfg (pads_of false false false) s) = true.
Proof. cbv zeta. split; reflexivity. Qed.

(** C3, amended: a tick that starts with [reset_index_pulse] set clears it
    exactly when [index_pulse] was pending at the start of the tick;
    otherwise the request stays. *)
Theorem C3_request_cleared_iff_pulse_pending cfg pads s :
  reset_index_pulse s = true ->
  reset_index_pulse (sync cfg pads s) = negb (index_pulse s).
Proof.
  intros Hrip. rewrite sync_reset_index_pulse, Hrip.
  destruct (index_pulse s); reflexivity.
Qed.

Lemma C3_request_cleared_iff_pulse_pending_witness :
  reset_index_pulse
    (sync (config_of 0 None None) (pads_of false false false)
       (registers false 0 true true false 0 0 0)) = false.
Proof.
  apply (C3_request_cleared_iff_pulse_pending (config_of 0 None None)
           (pads_of false false false)
           (registers false 0 true true false 0 0 0)).
  reflexivity.
Defined.

(** C4, as stated: a tick with a rising index flank that ends with
    [index_pulse] false, the acknowledgement of the previous pulse having
    been assigned after the new flank. *)
Lemma C4_new_flank_lost_to_ack :
  let cfg := config_of 0 None None in
  let s := registers false 0 true true false 0 0 2 in
  index_rising s = true /\
  index_pulse (sync cfg (pads_of false false false) s) = false.
Proof. cbv zeta. split; reflexivity. Qed.

(** C4, amended: a tick with a rising index flank ends with [index_pulse]
    true, unless [reset_index_pulse] and [index_pulse] were both set at the
    start of the tick. *)
Theorem C4_flank_sets_pulse_unless_ack cfg pads s :
  index_rising s = true ->
  reset_index_pulse s && index_pulse s = false ->
  index_pulse (sync cfg pads s) = true.
Proof.
  intros Hr Hack. rewrite sync_index_pulse, Hack, Hr. reflexivity.
Qed.

Lemma C4_flank_sets_pulse_unless_ack_witness :
  index_pulse
    (sync (config_of 0 None None) (pads_of false false false)
       (registers false 0 false true false 0 0 2)) = true.
Proof.
  apply (C4_flank_sets_pulse_unless_ack (config_of 0 None None)
           (pads_of false false false)
           (registers false 0 false true false 0 0 2));
    reflexivity.
Defined.

(** C10: a tick that starts with [reset_index_pulse] and [index_pulse] both
    set ends with [index_pulse] equal to the low bit of [reset_value] (with
    or without a new flank in the same tick), so the pulse is cleared exactly
    when [reset_value] is even; [reset_index_pulse] is cleared in every such
    tick. *)
Theorem C10_ack_writes_low_bit_of_reset_value cfg pads s :
  reset_index_pulse s = true -> index_pulse s = true ->
  index_pulse (sync cfg pads s) = Z.testbit (reset_value cfg) 0 /\
  index_pulse (sync cfg pads s) = Z.odd (reset_value cfg) /\
  (index_pulse (sync cfg pads s) = false <-> Z.even (reset_value cfg) = true) /\
  reset_index_pulse (sync cfg pads s) = false.
Proof.
  intros Hrip Hip.
  rewrite sync_index_pulse, sync_reset_index_pulse, Hrip, Hip. cbn [andb].
  rewrite to_bit_odd. unfold to_bit. rewrite Z.bit0_odd.
  repeat split; rewrite <- Z.negb_even;
    destruct (Z.even (reset_value cfg)); cbn; congruence.
Qed.

Lemma C10_ack_writes_low_bit_of_reset_value_witness :
  index_pulse
    (sync (config_of 3 None None) (pads_of false false false)
       (registers false 0 true true false 0 0 0)) = true /\
  reset_index_pulse
    (sync (config_of 3 None None) (pads_of false false false)
       (registers false 0 true true false 0 0 0)) = false.
Proof.
  pose proof (C10_ack_writes_low_bit_of_reset_value (config_of 3 None None)
                (pads_of false false false)
                (registers false 0 true true false 0 0 0)
                eq_refl eq_refl) as [_ [H1 [_ H2]]].
  split; [exact H1 | exact H2].
Defined.

(** ** The decoder *)

Lemma count_ena_line_changed s :
  count_ena s =
    xorb (line_changed (pin_A_delayed s)) (line_changed (pin_B_delayed s)).
Proof.
  unfold count_ena, line_changed.
  destruct (bit (pin_A_delayed s) 1), (bit (pin_A_delayed s) 2),
    (bit (pin_B_delayed s) 1), (bit (pin_B_delayed s) 2); reflexivity.
Qed.

(** C6, as stated: both lines changed between the two samples (A and B each
    went from 0 to 1), and the decoder asserts no count-enable: the tick
    counts zero events and the counter keeps its value. *)
Lemma C6_double_edge_counts_nothing :
  let cfg := config_of 0 None None in
  let s := registers false 7 false false false 2 2 0 in
  line_changed (pin_A_delayed s) = true /\
  line_changed (pin_B_delayed s) = true /\
  count_ena s = false /\
  counter (sync cfg (pads_of true true false) s) = counter s.
Proof. cbv zeta. repeat split; reflexivity. Qed.

(** C6, amended: [count_ena] is [a1 xor a2 xor b1 xor b2] and [count_dir] is
    [a1 xor b2]; count-enable is asserted exactly when one of the two lines,
    and not the other, changed between the two samples, so edges on both
    lines at once give no count event.  In a tick without reset and without
    bounds, a count-enable edge moves the counter one up when [count_dir] is
    true and one down when it is false, and the counter stays without one. *)
Theorem C6_decoder cfg pads s :
  let a1 := bit (pin_A_delayed s) 1 in
  let a2 := bit (pin_A_delayed s) 2 in
  let b1 := bit (pin_B_delayed s) 1 in
  let b2 := bit (pin_B_delayed s) 2 in
  count_ena s = xorb (xorb (xorb a1 a2) b1) b2 /\
  count_dir s = xorb a1 b2 /\
  count_ena s =
    xorb (line_changed (pin_A_delayed s)) (line_changed (pin_B_delayed s)) /\
  (line_changed (pin_A_delayed s) = true ->
   line_changed (pin_B_delayed s) = true -> count_ena s = false) /\
  (reset_trigger s = false ->
   min_value cfg = None -> max_value cfg = None ->
   counter (sync cfg pads s) =
     if count_ena s
     then to_signed COUNTER_SIZE
            (if count_dir s then counter s + 1 else counter s - 1)
     else counter s).
Proof.
  intros a1 a2 b1 b2.
  split; [reflexivity|]. split; [reflexivity|].
  split; [apply count_ena_line_changed|]. split.
  - intros HA HB. rewrite count_ena_line_changed, HA, HB. reflexivity.
  - intros Hrt Hlo Hhi.
    rewrite sync_counter, Hlo, Hhi. unfold counter_kept. rewrite Hrt.
    unfold count_event.
    assert (Hie : index_enable s && index_rising s = false).
    { unfold reset_trigger in Hrt. apply orb_false_iff in Hrt. tauto. }
    rewrite Hie. cbn [negb]. rewrite andb_true_r.
    destruct (count_ena s), (count_dir s); reflexivity.
Qed.

Lemma C6_decoder_witness :
  counter
    (sync (config_of 0 None None) (pads_of true false false)
       (registers false 7 false false false 2 0 0)) = 8.
Proof.
  pose proof (C6_decoder (config_of 0 None None) (pads_of true false false)
                (registers false 7 false false false 2 0 0)) as H.
  cbv zeta in H. destruct H as [_ [_ [_ [_ H]]]].
  rewrite (H eq_refl eq_refl eq_refl). reflexivity.
Defined.

(** ** The index-triggered reset *)

(** C7: a tick that starts with [index_enable] set and a rising index flank
    ends with the counter at [reset_value] and [index_enable] false, whether
    or not a count-enable edge is present (and whether or not the global
    reset is set). *)
Theorem C7_index_reset cfg pads s :
  int32 (reset_value cfg) ->
  index_enable s = true -> index_rising s = true ->
  counter (sync cfg pads s) = reset_value cfg /\
  index_enable (sync cfg pads s) = false.
Proof.
  intros Hrv Hie Hr.
  rewrite sync_counter, sync_index_enable.
  unfold count_event, counter_kept, reset_trigger.
  rewrite Hie, Hr, orb_true_r. cbn [andb negb]. rewrite andb_false_r.
  split; [apply to_signed_int32; exact Hrv | reflexivity].
Qed.

(** The example of the spec: [reset_value = 5], the counter at 33, a rising
    flank of the index and a forward count-enable edge in the same tick. *)
Lemma C7_index_reset_witness :
  let s := registers true 33 false false false 2 0 2 in
  count_ena s = true /\
  counter (sync (config_of 5 None None) (pads_of true false true) s) = 5 /\
  index_enable (sync (config_of 5 None None) (pads_of true false true) s)
    = false.
Proof.
  cbv zeta. split; [reflexivity|].
  apply (C7_index_reset (config_of 5 None None) (pads_of true false true)
           (registers true 33 false false false 2 0 2)).
  - unfold int32. cbn. lia.
  - reflexivity.
  - reflexivity.
Defined.

(** ** Reset over two ticks *)

Lemma host_write_count_ena w s : count_ena (host_write w s) = count_ena s.
Proof. reflexivity. Qed.

Lemma host_write_count_dir w s : count_dir (host_write w s) = count_dir s.
Proof. reflexivity. Qed.

Lemma host_write_index_rising w s :
  index_rising (host_write w s) = index_rising s.
Proof. reflexivity. Qed.

Lemma host_write_counter w s : counter (host_write w s) = counter s.
Proof. reflexivity. Qed.

Lemma host_write_index_pulse w s :
  index_pulse (host_write w s) = index_pulse s.
Proof. reflexivity. Qed.

Lemma host_write_reset w s :
  reset (host_write w s) = drive (w_reset w) (reset s).
Proof. reflexivity. Qed.

Lemma host_write_index_enable w s :
  index_enable (host_write w s) = drive (w_index_enable w) (index_enable s).
Proof. reflexivity. Qed.

Lemma host_write_reset_index_pulse w s :
  reset_index_pulse (host_write w s) =
    drive (w_reset_index_pulse w) (reset_index_pulse s).
Proof. reflexivity. Qed.

(** When the first tick under [reset] has no count-enable edge, holding
    [reset] for a second tick and releasing it before the second tick leave
    the same host-visible registers, whatever the pads of the two ticks and
    whether or not the second tick counts. *)
Lemma second_reset_changes_nothing cfg pads1 pads2 s :
  count_ena s = false ->
  host_view (run cfg [(assert_reset, pads1); (assert_reset, pads2)] s) =
  host_view (run cfg [(assert_reset, pads1); (deassert_reset, pads2)] s).
Proof.
  intros H1. cbn [run].
  set (s1 := tick cfg (assert_reset, pads1) s) in *.
  assert (Hc1 : counter s1 = to_signed COUNTER_SIZE (reset_value cfg)).
  { unfold s1, tick. cbn [fst snd]. rewrite sync_counter.
    unfold count_event, counter_kept, reset_trigger.
    rewrite host_write_count_ena, H1, host_write_reset. reflexivity. }
  assert (Hie1 : index_enable s1 = false).
  { unfold s1, tick. cbn [fst snd]. rewrite sync_index_enable.
    unfold reset_trigger. rewrite host_write_reset. reflexivity. }
  unfold host_view, tick. cbn [fst snd].
  rewrite !sync_counter, !sync_index_enable, !sync_index_pulse,
    !sync_reset_index_pulse.
  unfold count_event, counter_kept, reset_trigger.
  rewrite !host_write_count_ena, !host_write_count_dir,
    !host_write_index_rising,
    !host_write_counter, !host_write_index_pulse, !host_write_reset,
    !host_write_index_enable, !host_write_reset_index_pulse.
  cbn [assert_reset deassert_reset drive w_reset w_index_enable
       w_reset_index_pulse].
  rewrite Hie1, Hc1. cbn [andb orb negb]. reflexivity.
Qed.

(** C9: two consecutive ticks with [reset] set should end in the same
    counter, [index_enable], [index_pulse] and [reset_index_pulse] as one
    tick with [reset] set followed by one with [reset] cleared, on the same
    inputs.  The code does not do so: with [reset_value = 0], counter 7 and
    a forward edge on line A in the first tick, that tick counts to 8
    instead of resetting; the second tick has no edge, so it resets to 0
    when [reset] is still set and keeps 8 when it is not. *)
Theorem C9_two_resets_differ_from_one :
  let cfg := config_of 0 None None in
  let pads := pads_of true false false in
  let s := registers false 7 false false false 3 0 0 in
  host_view (tick cfg (assert_reset, pads) s) = (8, false, false, false) /\
  host_view (run cfg [(assert_reset, pads); (assert_reset, pads)] s)
    = (0, false, false, false) /\
  host_view (run cfg [(assert_reset, pads); (deassert_reset, pads)] s)
    = (8, false, false, false) /\
  host_view (run cfg [(assert_reset, pads); (assert_reset, pads)] s)
  <> host_view (run cfg [(assert_reset, pads); (deassert_reset, pads)] s).
Proof.
  cbv zeta. repeat split; try (vm_compute; reflexivity).
  vm_compute. discriminate.
Qed.

(** ** The bounds of the counter *)

Section Bounded.

Variable cfg : EncoderInstanceConfig.
Variables lo hi : Z.
Hypothesis Hlo : min_value cfg = Some lo.
Hypothesis Hhi : max_value cfg = Some hi.
Hypothesis lo_int32 : int32 lo.
Hypothesis hi_int32 : int32 hi.
Hypothesis reset_value_within : lo <= reset_value cfg <= hi.

Lemma sync_counter_within pads s :
  lo <= counter s <= hi -> lo <= counter (sync cfg pads s) <= hi.
Proof.
  intros Hc. unfold int32 in *.
  assert (Hrv : to_signed COUNTER_SIZE (reset_value cfg) = reset_value cfg)
    by (apply to_signed_int32; unfold int32; lia).
  rewrite sync_counter, Hlo, Hhi. unfold counter_kept. rewrite Hrv.
  destruct (count_event s), (count_dir s), (reset_trigger s);
    try lia.
  all: try (destruct (counter s <? hi) eqn:E;
            [apply Z.ltb_lt in E;
             rewrite to_signed_int32 by (unfold int32; lia); lia
            | lia]).
  all: destruct (counter s >? lo) eqn:E;
    [apply Z.gtb_lt in E;
     rewrite to_signed_int32 by (unfold int32; lia); lia
    | lia].
Qed.

Lemma run_counter_within trace : forall s,
  lo <= counter s <= hi -> lo <= counter (run cfg trace s) <= hi.
Proof.
  induction trace as [|i rest IH]; intros s Hc; [exact Hc|].
  cbn [run]. apply IH. unfold tick. apply sync_counter_within.
  rewrite host_write_counter. exact Hc.
Qed.

Lemma power_up_counter_within : lo <= counter (power_up cfg) <= hi.
Proof.
  cbn [power_up counter]. exact reset_value_within.
Qed.

Lemma increment_at_max pads s :
  counter s = hi -> count_event s = true -> count_dir s = true ->
  reset_trigger s = false -> counter (sync cfg pads s) = hi.
Proof.
  intros Hc Hev Hd Hrt.
  rewrite sync_counter, Hev, Hd, Hhi. unfold counter_kept.
  rewrite Hrt, Hc, Z.ltb_irrefl. reflexivity.
Qed.

Lemma decrement_at_min pads s :
  counter s = lo -> count_event s = true -> count_dir s = false ->
  reset_trigger s = false -> counter (sync cfg pads s) = lo.
Proof.
  intros Hc Hev Hd Hrt.
  rewrite sync_counter, Hev, Hd, Hlo. unfold counter_kept.
  rewrite Hrt, Hc.
  rewrite Z.gtb_ltb, Z.ltb_irrefl.
  reflexivity.
Qed.

End Bounded.

(** [n] forward edges from a counter at or below the maximum add [n],
    stopping at the maximum. *)
Lemma forward_edges_counter cfg hi trace : forall s n,
  max_value cfg = Some hi -> hi < 2 ^ 31 ->
  - 2 ^ 31 <= counter s <= hi ->
  forward_edges cfg trace s = Some n ->
  counter (run cfg trace s) = Z.min (counter s + Z.of_nat n) hi.
Proof.
  induction trace as [|i rest IH]; intros s n Hhi Hr Hc Hf.
  - cbn in Hf. injection Hf as <-. cbn [run]. lia.
  - cbn [forward_edges] in Hf. cbn [run].
    destruct (reset_trigger (host_write (fst i) s)) eqn:Hrt; [discriminate|].
    assert (Hie : index_enable (host_write (fst i) s)
                  && index_rising (host_write (fst i) s) = false).
    { unfold reset_trigger in Hrt. apply orb_false_iff in Hrt. tauto. }
    assert (Hstep : counter (tick cfg i s) =
                    if count_ena s
                    then if counter s <? hi then counter s + 1 else counter s
                    else counter s).
    { unfold tick. rewrite sync_counter, Hhi. unfold counter_kept, count_event.
      rewrite Hrt, Hie, host_write_count_ena, host_write_counter.
      cbn [negb]. rewrite andb_true_r.
      destruct (count_ena s) eqn:Hen; [|reflexivity].
      rewrite host_write_count_ena, Hen in Hf.
      destruct (count_dir (host_write (fst i) s)); [|discriminate].
      destruct (counter s <? hi) eqn:E; [|reflexivity].
      apply Z.ltb_lt in E. apply to_signed_int32. unfold int32. lia. }
    rewrite host_write_count_ena in Hf.
    destruct (count_ena s) eqn:Hen.
    + destruct (count_dir (host_write (fst i) s)); [|discriminate].
      destruct (forward_edges cfg rest (tick cfg i s)) as [m|] eqn:Hm;
        [|discriminate].
      cbn in Hf. injection Hf as <-.
      destruct (counter s <? hi) eqn:E.
      * apply Z.ltb_lt in E.
        rewrite (IH _ m Hhi Hr) by (rewrite ?Hstep; auto; lia).
        rewrite Hstep. lia.
      * apply Z.ltb_ge in E.
        rewrite (IH _ m Hhi Hr) by (rewrite ?Hstep; auto; lia).
        rewrite Hstep. lia.
    + rewrite (IH _ n Hhi Hr) by (rewrite ?Hstep; auto; lia).
      rewrite Hstep. reflexivity.
Qed.

(** C5: with both bounds configured, in the signed 32-bit range, and
    [min_value <= reset_value <= max_value], the counter stays within
    [[min_value, max_value]] under every sequence of inputs and host writes,
    from power-up and from every state within the bounds; an increment at
    [max_value] and a decrement at [min_value] leave the counter as it is;
    and with [reset_value = 0] and [max_value = 10], twelve forward count
    edges after power-up leave the counter at 10. *)
Theorem C5_counter_within_bounds cfg lo hi :
  min_value cfg = Some lo -> max_value cfg = Some hi ->
  int32 lo -> int32 hi ->
  lo <= reset_value cfg <= hi ->
  (forall trace, lo <= counter (run cfg trace (power_up cfg)) <= hi) /\
  (forall trace s,
      lo <= counter s <= hi -> lo <= counter (run cfg trace s) <= hi) /\
  (forall pads s,
      counter s = hi -> count_event s = true -> count_dir s = true ->
      reset_trigger s = false -> counter (sync cfg pads s) = hi) /\
  (forall pads s,
      counter s = lo -> count_event s = true -> count_dir s = false ->
      reset_trigger s = false -> counter (sync cfg pads s) = lo) /\
  (reset_value cfg = 0 -> hi = 10 ->
   forall trace,
     forward_edges cfg trace (power_up cfg) = Some 12%nat ->
     counter (run cfg trace (power_up cfg)) = 10).
Proof.
  intros Hlo Hhi Hlo32 Hhi32 Hrv.
  split; [|split; [|split; [|split]]].
  - intros trace.
    apply (run_counter_within cfg lo hi Hlo Hhi Hlo32 Hhi32 Hrv).
    apply (power_up_counter_within cfg lo hi Hrv).
  - intros trace s. apply (run_counter_within cfg lo hi); auto.
  - intros pads s. apply (increment_at_max cfg hi Hhi).
  - intros pads s. apply (decrement_at_min cfg lo Hlo).
  - intros H0 H10 trace Hf. subst hi.
    rewrite (forward_edges_counter cfg 10 trace _ 12%nat Hhi); auto.
    + cbn [power_up counter]. rewrite H0. reflexivity.
    + lia.
    + cbn [power_up counter]. rewrite H0. cbn. lia.
Qed.

Lemma C5_counter_within_bounds_witness :
  let cfg := config_of 0 (Some (-5)) (Some 10) in
  forward_edges cfg (quadrature_forward 14) (power_up cfg) = Some 12%nat /\
  counter (run cfg (quadrature_forward 14) (power_up cfg)) = 10.
Proof.
  cbv zeta. split; [vm_compute; reflexivity|].
  assert (H32a : int32 (-5)) by (unfold int32; cbn; lia).
  assert (H32b : int32 10) by (unfold int32; cbn; lia).
  assert (Hrv : -5 <= reset_value (config_of 0 (Some (-5)) (Some 10)) <= 10)
    by (cbn; lia).
  destruct (C5_counter_within_bounds (config_of 0 (Some (-5)) (Some 10))
              (-5) 10 eq_refl eq_refl H32a H32b Hrv) as [_ [_ [_ [_ H]]]].
  apply (H eq_refl eq_refl). vm_compute. reflexivity.
Defined.

(** ** The packed registers *)

(** [packed_size] is 32 times the ceiling of N / 32. *)
Lemma Qceiling_div32 (n : Z) :
  Qceiling (inject_Z n / inject_Z 32) = - (- n / 32).
Proof.
  unfold Qceiling, Qfloor, Qdiv, Qinv, Qmult, Qopp, inject_Z.
  cbn [Qnum Qden]. change (Z.pos (1 * 32)) with 32.
  rewrite Z.mul_1_r. reflexivity.
Qed.

Lemma packed_size_ceiling config :
  let n := Z.of_nat (List.length (instances config)) in
  exists k, packed_size config = 32 * k /\ 32 * (k - 1) < n <= 32 * k.
Proof.
  intros n. unfold packed_size. fold n. rewrite Qceiling_div32.
  exists (- (- n / 32)). split; [lia|].
  pose proof (Z.div_mod (- n) 32 ltac:(lia)) as Hd.
  pose proof (Z.mod_pos_bound (- n) 32 ltac:(lia)) as Hm.
  lia.
Qed.

Lemma testbit_b2z (b : bool) (i : Z) :
  Z.testbit (Z.b2z b) i = (i =? 0) && b.
Proof.
  destruct b; cbn [Z.b2z].
  - change 1 with (2 ^ 0). rewrite Z.pow2_bits_eqb by lia.
    rewrite Z.eqb_sym, andb_true_r. reflexivity.
  - rewrite Z.bits_0, andb_false_r. reflexivity.
Qed.

Lemma Cat_testbit l : forall i : nat,
  Z.testbit (Cat l) (Z.of_nat i) = nth i l false.
Proof.
  induction l as [|b rest IH]; intros i.
  - cbn [Cat]. rewrite Z.bits_0. destruct i; reflexivity.
  - cbn [Cat]. unfold Cat1.
    rewrite Z.lor_spec, testbit_b2z, Z.shiftl_spec by lia.
    destruct i as [|i].
    + cbn [nth Z.of_nat]. change (0 - 1) with (-1).
      rewrite Z.testbit_neg_r by lia. cbn. apply orb_false_r.
    + cbn [nth]. replace (Z.of_nat (S i) - 1) with (Z.of_nat i) by lia.
      replace (Z.of_nat (S i) =? 0) with false
        by (symmetry; apply Z.eqb_neq; lia).
      cbn [andb orb]. apply IH.
Qed.



Lemma to_unsigned_testbit size v i :
  0 <= size -> 0 <= i ->
  Z.testbit (to_unsigned size v) i = Z.testbit v i && (i <? size).
Proof.
  intros Hs Hi. unfold to_unsigned.
  rewrite Z.land_spec, Z.testbit_ones_nonneg by lia. reflexivity.
Qed.

Lemma new_CSR_positive (size : Z) : 0 < size -> new_CSR size = inr size.
Proof.
  intros H. unfold new_CSR.
  replace (0 <? size) with true by (symmetry; apply Z.ltb_lt; exact H).
  reflexivity.
Qed.




(** * Further properties of the encoder *)

(** ** The synchronizer *)

Lemma run_app cfg t1 : forall t2 s,
  run cfg (t1 ++ t2) s = run cfg t2 (run cfg t1 s).
Proof.
  induction t1 as [|i t1 IH]; intros t2 s; [reflexivity|].
  cbn [app run]. apply IH.
Qed.

Lemma shift_testbit (b : bool) (d i : Z) :
  0 <= i ->
  Z.testbit (to_unsigned 3 (Cat1 b (low 2 d))) i =
    if i =? 0 then b
    else if i <? 3 then Z.testbit d (i - 1) else false.
Proof.
  intros Hi. rewrite to_unsigned_testbit by lia. unfold Cat1, low.
  rewrite Z.lor_spec, testbit_b2z, Z.shiftl_spec by lia.
  destruct (i =? 0) eqn:E0.
  - apply Z.eqb_eq in E0. subst i. cbn [andb]. change (0 - 1) with (-1).
    rewrite Z.testbit_neg_r by lia. cbn. rewrite orb_false_r, andb_true_r.
    reflexivity.
  - apply Z.eqb_neq in E0. cbn [andb orb].
    rewrite Z.land_spec, Z.testbit_ones_nonneg by lia.
    destruct (i <? 3) eqn:E3.
    + apply Z.ltb_lt in E3.
      replace (i - 1 <? 2) with true by (symmetry; apply Z.ltb_lt; lia).
      rewrite !andb_true_r. reflexivity.
    + apply andb_false_r.
Qed.

Lemma shift_testbit_0 (b : bool) (d : Z) :
  Z.testbit (to_unsigned 3 (Cat1 b (low 2 d))) 0 = b.
Proof. rewrite shift_testbit by lia. reflexivity. Qed.

Lemma shift_testbit_1 (b : bool) (d : Z) :
  Z.testbit (to_unsigned 3 (Cat1 b (low 2 d))) 1 = Z.testbit d 0.
Proof. rewrite shift_testbit by lia. reflexivity. Qed.

Lemma shift_testbit_2 (b : bool) (d : Z) :
  Z.testbit (to_unsigned 3 (Cat1 b (low 2 d))) 2 = Z.testbit d 1.
Proof. rewrite shift_testbit by lia. reflexivity. Qed.

Lemma shift_three_times (a b c : bool) (d : Z) :
  to_unsigned 3
    (Cat1 c (low 2 (to_unsigned 3
       (Cat1 b (low 2 (to_unsigned 3 (Cat1 a (low 2 d)))))))) =
  Cat [c; b; a].
Proof.
  apply Z.bits_inj'. intros n Hn.
  replace n with (Z.of_nat (Z.to_nat n)) at 2 by lia.
  rewrite Cat_testbit.
  destruct (Z.eq_dec n 0) as [->|N0];
    [rewrite shift_testbit_0; reflexivity|].
  destruct (Z.eq_dec n 1) as [->|N1];
    [rewrite shift_testbit_1, shift_testbit_0; reflexivity|].
  destruct (Z.eq_dec n 2) as [->|N2];
    [rewrite shift_testbit_2, shift_testbit_1, shift_testbit_0;
     reflexivity|].
  rewrite shift_testbit by lia.
  replace (n =? 0) with false by (symmetry; apply Z.eqb_neq; lia).
  replace (n <? 3) with false by (symmetry; apply Z.ltb_ge; lia).
  rewrite nth_overflow; [reflexivity|]. cbn [List.length]. lia.
Qed.

Lemma tick_histories cfg i s :
  pin_A_delayed (tick cfg i s) =
    to_unsigned 3 (Cat1 (pin_A (snd i)) (low 2 (pin_A_delayed s))) /\
  pin_B_delayed (tick cfg i s) =
    to_unsigned 3 (Cat1 (pin_B (snd i)) (low 2 (pin_B_delayed s))) /\
  pin_Z_delayed (tick cfg i s) =
    to_unsigned 3 (Cat1 (pin_Z (snd i)) (low 2 (pin_Z_delayed s))).
Proof.
  unfold tick.
  rewrite sync_pin_A_delayed, sync_pin_B_delayed, sync_pin_Z_delayed.
  repeat split.
Qed.

Lemma histories_after_three_ticks cfg i1 i2 i3 s :
  let s3 := run cfg [i1; i2; i3] s in
  pin_A_delayed s3 = Cat [pin_A (snd i3); pin_A (snd i2); pin_A (snd i1)] /\
  pin_B_delayed s3 = Cat [pin_B (snd i3); pin_B (snd i2); pin_B (snd i1)] /\
  pin_Z_delayed s3 = Cat [pin_Z (snd i3); pin_Z (snd i2); pin_Z (snd i1)].
Proof.
  cbv zeta. cbn [run].
  destruct (tick_histories cfg i3 (tick cfg i2 (tick cfg i1 s)))
    as [-> [-> ->]].
  destruct (tick_histories cfg i2 (tick cfg i1 s)) as [-> [-> ->]].
  destruct (tick_histories cfg i1 s) as [-> [-> ->]].
  rewrite !shift_three_times. repeat split.
Qed.

(** X1: after any run that ends with three ticks, whatever the registers
    held before and whatever the host wrote, each history register holds
    exactly the samples its pad had on those three ticks, the latest at
    bit 0. *)
Theorem X1_histories_hold_last_three_samples cfg trace i1 i2 i3 s :
  let s' := run cfg (trace ++ [i1; i2; i3]) s in
  pin_A_delayed s' = Cat [pin_A (snd i3); pin_A (snd i2); pin_A (snd i1)] /\
  pin_B_delayed s' = Cat [pin_B (snd i3); pin_B (snd i2); pin_B (snd i1)] /\
  pin_Z_delayed s' = Cat [pin_Z (snd i3); pin_Z (snd i2); pin_Z (snd i1)].
Proof.
  cbv zeta. rewrite run_app.
  apply (histories_after_three_ticks cfg i1 i2 i3 (run cfg trace s)).
Qed.

(** X2: the decoder works on the samples of the two ticks before the last:
    after three ticks with pad samples 1, 2, 3, count-enable is
    [(A1 xor A2) xor (B1 xor B2)], the direction is [A2 xor B1] and the index
    flank is [Z2 and not Z1]; the latest sample does not enter yet. *)
Theorem X2_decoder_sees_samples_two_ticks_late cfg trace i1 i2 i3 s :
  let s' := run cfg (trace ++ [i1; i2; i3]) s in
  count_ena s' =
    xorb (xorb (pin_A (snd i1)) (pin_A (snd i2)))
         (xorb (pin_B (snd i1)) (pin_B (snd i2))) /\
  count_dir s' = xorb (pin_A (snd i2)) (pin_B (snd i1)) /\
  index_rising s' = pin_Z (snd i2) && negb (pin_Z (snd i1)).
Proof.
  cbv zeta. rewrite run_app.
  destruct (histories_after_three_ticks cfg i1 i2 i3 (run cfg trace s))
    as [HA [HB HZ]].
  unfold count_ena, count_dir, index_rising, bit.
  rewrite HA, HB, HZ.
  change 1 with (Z.of_nat 1). change 2 with (Z.of_nat 2).
  rewrite !Cat_testbit. cbn [nth].
  repeat split.
  destruct (pin_A (snd i1)), (pin_A (snd i2)), (pin_B (snd i1)),
    (pin_B (snd i2)); reflexivity.
Qed.

(** ** The range of the counter *)

Lemma sync_counter_int32 cfg pads s :
  int32 (counter s) -> int32 (counter (sync cfg pads s)).
Proof.
  intros H. rewrite sync_counter. unfold counter_kept.
  destruct (count_event s), (count_dir s), (max_value cfg), (min_value cfg),
    (reset_trigger s);
    repeat match goal with
      | |- context [if ?b then _ else _] => destruct b
      end;
    try apply to_signed_range; exact H.
Qed.

(** X4: whatever the configuration (bounds or none, values of any size),
    a run from a state whose counter is a signed 32-bit number leaves the
    counter a signed 32-bit number; after power-up this is so when
    [reset_value] is one. *)
Theorem X4_counter_is_signed_32_bit cfg trace :
  (forall s, int32 (counter s) -> int32 (counter (run cfg trace s))) /\
  (int32 (reset_value cfg) ->
   int32 (counter (run cfg trace (power_up cfg)))).
Proof.
  assert (H : forall s, int32 (counter s) -> int32 (counter (run cfg trace s))).
  { induction trace as [|i rest IH]; intros s Hs; [exact Hs|].
    cbn [run]. apply IH. unfold tick. apply sync_counter_int32.
    rewrite host_write_counter. exact Hs. }
  split; [exact H|].
  intros Hrv. apply H. cbn [power_up counter]. exact Hrv.
Qed.

Lemma X4_counter_is_signed_32_bit_witness :
  int32
    (counter
       (run (config_of (2 ^ 40) None None) (quadrature_forward 5)
          (registers false 7 false false false 0 0 0))).
Proof.
  apply (proj1 (X4_counter_is_signed_32_bit (config_of (2 ^ 40) None None)
                  (quadrature_forward 5))).
  unfold int32. cbn. lia.
Defined.

(** ** Counting without bounds *)

Lemma to_signed_add (x y : Z) :
  to_signed COUNTER_SIZE (to_signed COUNTER_SIZE x + y) =
  to_signed COUNTER_SIZE (x + y).
Proof.
  unfold to_signed, COUNTER_SIZE. change (2 ^ (32 - 1)) with (2 ^ 31).
  replace ((x + 2 ^ 31) mod 2 ^ 32 - 2 ^ 31 + y + 2 ^ 31)
    with ((x + 2 ^ 31) mod 2 ^ 32 + y) by lia.
  rewrite Z.add_mod_idemp_l by lia.
  replace (x + 2 ^ 31 + y) with (x + y + 2 ^ 31) by lia. reflexivity.
Qed.

Lemma tick_counter_unbounded cfg i s :
  min_value cfg = None -> max_value cfg = None ->
  reset_trigger (host_write (fst i) s) = false ->
  counter (tick cfg i s) =
    if count_ena s
    then to_signed COUNTER_SIZE
           (counter s + if count_dir s then 1 else -1)
    else counter s.
Proof.
  intros Hlo Hhi Hrt. unfold tick.
  rewrite sync_counter, Hlo, Hhi. unfold counter_kept, count_event.
  rewrite Hrt.
  assert (Hie : index_enable (host_write (fst i) s)
                && index_rising (host_write (fst i) s) = false).
  { unfold reset_trigger in Hrt. apply orb_false_iff in Hrt. tauto. }
  rewrite Hie, host_write_count_ena, host_write_count_dir,
    host_write_counter.
  cbn [negb]. rewrite andb_true_r.
  destruct (count_ena s), (count_dir s); reflexivity.
Qed.

(** X5: with no bounds configured and no reset during the run, the counter
    ends at its starting value plus the forward edges minus the backward
    edges, taken modulo 2^32 into the signed range. *)
Theorem X5_unbounded_count_is_exact_modulo cfg trace : forall s d,
  min_value cfg = None -> max_value cfg = None ->
  int32 (counter s) ->
  net_count cfg trace s = Some d ->
  counter (run cfg trace s) = to_signed COUNTER_SIZE (counter s + d).
Proof.
  induction trace as [|i rest IH]; intros s d Hlo Hhi Hc Hn.
  - cbn in Hn. injection Hn as <-. cbn [run].
    rewrite Z.add_0_r. symmetry. apply to_signed_int32. exact Hc.
  - cbn [net_count] in Hn. cbn [run].
    destruct (reset_trigger (host_write (fst i) s)) eqn:Hrt; [discriminate|].
    destruct (net_count cfg rest (tick cfg i s)) as [d'|] eqn:Hd';
      [|discriminate].
    cbn [option_map] in Hn. injection Hn as <-.
    rewrite host_write_count_ena, host_write_count_dir.
    pose proof (tick_counter_unbounded cfg i s Hlo Hhi Hrt) as Hstep.
    assert (Hc1 : int32 (counter (tick cfg i s))).
    { unfold tick. apply sync_counter_int32.
      rewrite host_write_counter. exact Hc. }
    rewrite (IH _ d' Hlo Hhi Hc1 Hd'), Hstep.
    destruct (count_ena s).
    + rewrite to_signed_add. f_equal. lia.
    + f_equal.
Qed.

Lemma X5_unbounded_count_is_exact_modulo_witness :
  let cfg := config_of 0 None None in
  counter (run cfg (quadrature_forward 14)
             (registers false (2 ^ 31 - 5) false false false 0 0 0))
  = - 2 ^ 31 + 7.
Proof.
  cbv zeta.
  rewrite (X5_unbounded_count_is_exact_modulo (config_of 0 None None)
             (quadrature_forward 14)
             (registers false (2 ^ 31 - 5) false false false 0 0 0) 12
             eq_refl eq_refl).
  - reflexivity.
  - unfold int32. cbn. lia.
  - vm_compute. reflexivity.
Defined.

(** X6: without a maximum the counter wraps from 2^31 - 1 to -2^31 on a
    forward edge, and without a minimum from -2^31 to 2^31 - 1 on a backward
    edge. *)
Theorem X6_counter_wraps_at_the_ends cfg pads s :
  count_event s = true ->
  (max_value cfg = None -> count_dir s = true ->
   counter s = 2 ^ 31 - 1 -> counter (sync cfg pads s) = - 2 ^ 31) /\
  (min_value cfg = None -> count_dir s = false ->
   counter s = - 2 ^ 31 -> counter (sync cfg pads s) = 2 ^ 31 - 1).
Proof.
  intros Hev. split; intros Hb Hd Hc;
    rewrite sync_counter, Hev, Hd, Hb, Hc; reflexivity.
Qed.

Lemma X6_counter_wraps_at_the_ends_witness :
  counter
    (sync (config_of 0 None None) (pads_of true false false)
       (registers false (2 ^ 31 - 1) false false false 2 0 0)) = - 2 ^ 31.
Proof.
  apply (proj1 (X6_counter_wraps_at_the_ends (config_of 0 None None)
                  (pads_of true false false)
                  (registers false (2 ^ 31 - 1) false false false 2 0 0)
                  eq_refl));
    reflexivity.
Defined.

(** ** The flags the host owns *)

Lemma host_write_no_write s : host_write no_write s = s.
Proof. destruct s; reflexivity. Qed.

(** X7: the module only ever clears [index_enable] and
    [reset_index_pulse] and never touches [reset]: over a run in which the
    host writes nothing, a flag that is set at the end was set at the start,
    and [reset] is what it was. *)
Theorem X7_module_never_sets_host_flags cfg trace : forall s,
  Forall (fun i => fst i = no_write) trace ->
  (index_enable (run cfg trace s) = true -> index_enable s = true) /\
  (reset_index_pulse (run cfg trace s) = true ->
   reset_index_pulse s = true) /\
  reset (run cfg trace s) = reset s.
Proof.
  induction trace as [|i rest IH]; intros s Hw.
  - cbn [run]. auto.
  - inversion Hw as [|? ? Hi Hrest]; subst. cbn [run].
    destruct (IH (tick cfg i s) Hrest) as [Hie [Hrip Hr]].
    unfold tick in *. rewrite Hi, host_write_no_write in *.
    split; [|split].
    + intros H. apply Hie in H. rewrite sync_index_enable in H.
      destruct (reset_trigger s); [discriminate | exact H].
    + intros H. apply Hrip in H. rewrite sync_reset_index_pulse in H.
      destruct (reset_index_pulse s && index_pulse s);
        [discriminate | exact H].
    + rewrite Hr. apply sync_reset.
Qed.

Lemma X7_module_never_sets_host_flags_witness :
  reset
    (run (config_of 0 None None) (quadrature_forward 6)
       (registers true 3 true true true 0 0 0)) = true.
Proof.
  apply (X7_module_never_sets_host_flags (config_of 0 None None)
           (quadrature_forward 6) (registers true 3 true true true 0 0 0)).
  repeat constructor.
Defined.

(** X8: the index pulse is sticky.  Once set it stays set over every run in
    which no tick starts with [reset_index_pulse] set, whatever the pads do
    and also when the counter is reset in between. *)
Theorem X8_index_pulse_stays_until_acknowledged cfg trace : forall s,
  index_pulse s = true ->
  no_ack_request cfg trace s = true ->
  index_pulse (run cfg trace s) = true.
Proof.
  induction trace as [|i rest IH]; intros s Hip Hq; [exact Hip|].
  cbn [run]. cbn [no_ack_request] in Hq.
  apply andb_true_iff in Hq as [Hr Hq]. apply negb_true_iff in Hr.
  apply IH; [|exact Hq].
  unfold tick. rewrite sync_index_pulse, Hr. cbn [andb].
  rewrite host_write_index_pulse, Hip.
  destruct (index_rising (host_write (fst i) s)); reflexivity.
Qed.

Lemma X8_index_pulse_stays_until_acknowledged_witness :
  index_pulse
    (run (config_of 0 None None) (reset_held (quadrature_forward 6))
       (registers true 3 true false false 0 0 0)) = true.
Proof.
  apply (X8_index_pulse_stays_until_acknowledged (config_of 0 None None)
           (reset_held (quadrature_forward 6))
           (registers true 3 true false false 0 0 0));
    reflexivity.
Defined.

(** ** An instance without index pin *)

Lemma run_without_index_pin cfg inputs : forall s,
  config_pin_Z cfg = None ->
  index_pulse s = false -> pin_Z_delayed s = 0 ->
  index_pulse (run cfg (requested cfg inputs) s) = false /\
  pin_Z_delayed (run cfg (requested cfg inputs) s) = 0.
Proof.
  induction inputs as [|i rest IH]; intros s Hz Hip Hd; [split; assumption|].
  cbn [requested map run]. apply IH; [exact Hz| |].
  - unfold tick. cbn [fst snd]. rewrite sync_index_pulse.
    rewrite host_write_index_pulse, Hip, andb_false_r.
    rewrite host_write_index_rising. unfold index_rising. rewrite Hd.
    reflexivity.
  - unfold tick. cbn [fst snd]. rewrite sync_pin_Z_delayed.
    unfold pin_Z, request_pads. cbn [Encoder_Z]. rewrite Hz.
    replace (pin_Z_delayed (host_write (fst i) s)) with 0
      by (symmetry; exact Hd).
    reflexivity.
Qed.

(** X9: an instance configured without [pin_Z] gets pads without
    [Encoder_Z]; from power-up its index history stays zero, its
    [index_pulse] stays false under every run, and the [Constant(0)] that
    [create_from_config] puts into the status word in its place is the
    value of that flag. *)
Theorem X9_no_index_pin_no_index_pulse cfg inputs :
  config_pin_Z cfg = None ->
  let s := run cfg (requested cfg inputs) (power_up cfg) in
  index_pulse s = false /\
  pin_Z_delayed s = 0 /\
  index_rising s = false /\
  index_pulse_flags [cfg] [s] = [index_pulse s].
Proof.
  intros Hz s.
  destruct (run_without_index_pin cfg inputs (power_up cfg) Hz
              eq_refl eq_refl) as [Hip Hd].
  fold s in Hip, Hd.
  split; [exact Hip|]. split; [exact Hd|]. split.
  - unfold index_rising. rewrite Hd. reflexivity.
  - cbn [index_pulse_flags]. rewrite Hz, Hip. reflexivity.
Qed.

Lemma X9_no_index_pin_no_index_pulse_witness :
  let cfg := {| reset_value := 1; min_value := None; max_value := None;
                config_pin_Z := None |} in
  index_pulse
    (run cfg
       (requested cfg
          [(assert_reset_index_pulse, (true, false, false));
           (no_write, (true, true, true));
           (no_write, (false, true, true));
           (no_write, (false, false, true))])
       (power_up cfg)) = false.
Proof.
  cbv zeta.
  apply (X9_no_index_pin_no_index_pulse
           {| reset_value := 1; min_value := None; max_value := None;
              config_pin_Z := None |}).
  reflexivity.
Defined.

(** ** Counting against the maximum *)

(** X10: with a maximum configured (below 2^31), a run without reset whose
    [n] count-enable edges are all forward takes a counter that is at most
    the maximum to the smaller of counter plus [n] and the maximum. *)
Theorem X10_forward_edges_saturate_at_max cfg hi trace s n :
  max_value cfg = Some hi -> hi < 2 ^ 31 ->
  - 2 ^ 31 <= counter s <= hi ->
  forward_edges cfg trace s = Some n ->
  counter (run cfg trace s) = Z.min (counter s + Z.of_nat n) hi.
Proof. intros. apply forward_edges_counter; assumption. Qed.

Lemma X10_forward_edges_saturate_at_max_witness :
  counter
    (run (config_of 0 None (Some 20)) (quadrature_forward 14)
       (registers false 3 false false false 0 0 0)) = 15.
Proof.
  rewrite (X10_forward_edges_saturate_at_max (config_of 0 None (Some 20)) 20
             (quadrature_forward 14)
             (registers false 3 false false false 0 0 0) 12 eq_refl).
  - reflexivity.
  - lia.
  - cbn. lia.
  - vm_compute. reflexivity.
Defined.

(** ** The encoder inside the SoC *)

Lemma exec_app l1 : forall l2 cur nxt,
  exec (l1 ++ l2) cur nxt = exec l2 cur (exec l1 cur nxt).
Proof.
  induction l1 as [|st l1 IH]; intros l2 cur nxt; [reflexivity|].
  cbn [app exec]. apply IH.
Qed.

Lemma to_bit_b2z (b : bool) : to_bit (Z.b2z b) = b.
Proof. destruct b; reflexivity. Qed.

(** The registers after the encoder's statements when other statements of
    the same block have written [nxt] before them. *)
Lemma exec_sync_counter cfg pads cur nxt :
  counter (exec (sync_block cfg pads) cur nxt) =
    if count_event cur then
      if count_dir cur then
        match max_value cfg with
        | Some hi => if counter cur <? hi
                     then to_signed COUNTER_SIZE (counter cur + 1)
                     else if reset_trigger cur
                          then to_signed COUNTER_SIZE (reset_value cfg)
                          else counter nxt
        | None => to_signed COUNTER_SIZE (counter cur + 1)
        end
      else
        match min_value cfg with
        | Some lo => if counter cur >? lo
                     then to_signed COUNTER_SIZE (counter cur - 1)
                     else if reset_trigger cur
                          then to_signed COUNTER_SIZE (reset_value cfg)
                          else counter nxt
        | None => to_signed COUNTER_SIZE (counter cur - 1)
        end
    else if reset_trigger cur
         then to_signed COUNTER_SIZE (reset_value cfg)
         else counter nxt.
Proof. sync_field counter; sync_cases cur. Qed.

Lemma exec_sync_index_pulse cfg pads cur nxt :
  index_pulse (exec (sync_block cfg pads) cur nxt) =
    if reset_index_pulse cur && index_pulse cur then to_bit (reset_value cfg)
    else if index_rising cur then true
    else index_pulse nxt.
Proof. sync_field index_pulse; sync_cases cur. Qed.

Lemma exec_sync_index_enable cfg pads cur nxt :
  index_enable (exec (sync_block cfg pads) cur nxt) =
    if reset_trigger cur then false else index_enable nxt.
Proof. sync_field index_enable; sync_cases cur. Qed.

Lemma exec_sync_reset_index_pulse cfg pads cur nxt :
  reset_index_pulse (exec (sync_block cfg pads) cur nxt) =
    if reset_index_pulse cur && index_pulse cur then false
    else reset_index_pulse nxt.
Proof. sync_field reset_index_pulse; sync_cases cur. Qed.

Lemma exec_sync_reset cfg pads cur nxt :
  reset (exec (sync_block cfg pads) cur nxt) = reset nxt.
Proof. sync_field reset; sync_cases cur. Qed.

Lemma exec_sync_histories cfg pads cur nxt :
  pin_A_delayed (exec (sync_block cfg pads) cur nxt) =
    to_unsigned 3 (Cat1 (pin_A pads) (low 2 (pin_A_delayed cur))) /\
  pin_B_delayed (exec (sync_block cfg pads) cur nxt) =
    to_unsigned 3 (Cat1 (pin_B pads) (low 2 (pin_B_delayed cur))) /\
  pin_Z_delayed (exec (sync_block cfg pads) cur nxt) =
    to_unsigned 3 (Cat1 (pin_Z pads) (low 2 (pin_Z_delayed cur))).
Proof.
  split; [|split].
  - sync_field pin_A_delayed; sync_cases cur.
  - sync_field pin_B_delayed; sync_cases cur.
  - sync_field pin_Z_delayed; sync_cases cur.
Qed.

Lemma hookup_block_fields mmio index cur nxt :
  let h := exec (hookup_block mmio index) cur nxt in
  counter h = counter nxt /\
  index_pulse h = index_pulse nxt /\
  pin_A_delayed h = pin_A_delayed nxt /\
  pin_B_delayed h = pin_B_delayed nxt /\
  pin_Z_delayed h = pin_Z_delayed nxt /\
  reset h = to_bit (reset_storage mmio) /\
  index_enable h = bit (encoder_index_enable_storage mmio) (Z.of_nat index) /\
  reset_index_pulse h =
    bit (encoder_reset_index_pulse_storage mmio) (Z.of_nat index).
Proof.
  cbv zeta. unfold hookup_block. cbn [exec].
  unfold reset_eq, index_enable_eq, reset_index_pulse_eq.
  cbn [counter index_pulse pin_A_delayed pin_B_delayed pin_Z_delayed reset
       index_enable reset_index_pulse set_reset set_index_enable
       set_reset_index_pulse].
  rewrite !to_bit_b2z. repeat split.
Qed.

(** What one SoC tick does to the registers of the encoder, for either order
    of the merged statements. *)
Lemma soc_sync_encoder parent_first mmio index cfg pads st :
  let e := encoder st in
  let e' := encoder (soc_sync parent_first mmio index cfg pads st) in
  counter e' = counter (sync cfg pads e) /\
  index_pulse e' = index_pulse (sync cfg pads e) /\
  pin_A_delayed e' = pin_A_delayed (sync cfg pads e) /\
  pin_B_delayed e' = pin_B_delayed (sync cfg pads e) /\
  pin_Z_delayed e' = pin_Z_delayed (sync cfg pads e) /\
  reset e' = to_bit (reset_storage mmio) /\
  (reset_trigger e = false ->
   index_enable e' =
     bit (encoder_index_enable_storage mmio) (Z.of_nat index)) /\
  (reset_index_pulse e && index_pulse e = false ->
   reset_index_pulse e' =
     bit (encoder_reset_index_pulse_storage mmio) (Z.of_nat index)).
Proof.
  cbv zeta. unfold soc_sync, soc_sync_block. cbn [encoder].
  generalize (encoder st) as e. intros e.
  destruct parent_first; rewrite exec_app.
  - pose proof (hookup_block_fields mmio index e e) as H. cbv zeta in H.
    destruct H as [Hc [Hip [_ [_ [_ [Hr [Hie Hrip]]]]]]].
    destruct (exec_sync_histories cfg pads e
                (exec (hookup_block mmio index) e e)) as [HA [HB HZ]].
    destruct (exec_sync_histories cfg pads e e) as [HA' [HB' HZ']].
    unfold sync.
    rewrite !exec_sync_counter, !exec_sync_index_pulse, exec_sync_reset,
      exec_sync_index_enable, exec_sync_reset_index_pulse.
    rewrite HA, HB, HZ, HA', HB', HZ', Hc, Hip, Hr, Hie, Hrip.
    repeat split.
    + intros ->. reflexivity.
    + intros ->. reflexivity.
  - pose proof (hookup_block_fields mmio index e
                  (exec (sync_block cfg pads) e e)) as H.
    cbv zeta in H.
    destruct H as [Hc [Hip [HA [HB [HZ [Hr [Hie Hrip]]]]]]].
    unfold sync. rewrite Hc, Hip, HA, HB, HZ, Hr, Hie, Hrip.
    repeat split.
Qed.

Lemma to_signed_to_unsigned (c : Z) :
  to_signed COUNTER_SIZE (to_unsigned COUNTER_SIZE c) =
  to_signed COUNTER_SIZE c.
Proof.
  unfold to_unsigned, to_signed, COUNTER_SIZE.
  rewrite Z.land_ones by lia. change (2 ^ (32 - 1)) with (2 ^ 31).
  rewrite Z.add_mod_idemp_l by lia. reflexivity.
Qed.

(** X11: the counter status register of an instance holds, after a tick,
    the counter of the start of that tick as an unsigned 32-bit word, and
    reading that word as a signed 32-bit number gives the counter back. *)
Theorem X11_counter_status_round_trip parent_first mmio index cfg pads st :
  int32 (counter (encoder st)) ->
  let st' := soc_sync parent_first mmio index cfg pads st in
  0 <= encoder_counter_status st' < 2 ^ 32 /\
  to_signed COUNTER_SIZE (encoder_counter_status st') = counter (encoder st).
Proof.
  intros Hc. cbv zeta. unfold soc_sync. cbn [encoder_counter_status].
  split.
  - unfold to_unsigned, COUNTER_SIZE. rewrite Z.land_ones by lia.
    apply Z.mod_pos_bound. lia.
  - rewrite to_signed_to_unsigned. apply to_signed_int32. exact Hc.
Qed.

Lemma X11_counter_status_round_trip_witness :
  let st := {| encoder := registers false (-3) false false false 0 0 0;
               encoder_counter_status := 0 |} in
  let st' := soc_sync true
               {| reset_storage := 0; encoder_index_enable_storage := 0;
                  encoder_reset_index_pulse_storage := 0 |}
               0 (config_of 0 None None) (pads_of false false false) st in
  encoder_counter_status st' = 2 ^ 32 - 3 /\
  to_signed COUNTER_SIZE (encoder_counter_status st') = -3.
Proof.
  cbv zeta. split; [reflexivity|].
  apply (X11_counter_status_round_trip true
           {| reset_storage := 0; encoder_index_enable_storage := 0;
              encoder_reset_index_pulse_storage := 0 |}
           0 (config_of 0 None None) (pads_of false false false)
           {| encoder := registers false (-3) false false false 0 0 0;
              encoder_counter_status := 0 |}).
  unfold int32. cbn. lia.
Defined.

(** X12: in a SoC tick the counter, the index pulse and the three histories
    of an encoder move as in the module's own tick, so what the host has in
    the storage registers during a tick does not reach that tick's count;
    [reset] takes the low bit of the reset storage, and [index_enable] and
    [reset_index_pulse] take bit [index] of their storage words unless the
    module clears them in that tick.  This holds for either order of the
    SoC's and the encoder's statements. *)
Theorem X12_storage_reaches_flags_one_tick_later
  parent_first mmio index cfg pads st :
  let e := encoder st in
  let e' := encoder (soc_sync parent_first mmio index cfg pads st) in
  counter e' = counter (sync cfg pads e) /\
  index_pulse e' = index_pulse (sync cfg pads e) /\
  pin_A_delayed e' = pin_A_delayed (sync cfg pads e) /\
  pin_B_delayed e' = pin_B_delayed (sync cfg pads e) /\
  pin_Z_delayed e' = pin_Z_delayed (sync cfg pads e) /\
  reset e' = Z.testbit (reset_storage mmio) 0 /\
  (reset_trigger e = false ->
   index_enable e' =
     Z.testbit (encoder_index_enable_storage mmio) (Z.of_nat index)) /\
  (reset_index_pulse e && index_pulse e = false ->
   reset_index_pulse e' =
     Z.testbit (encoder_reset_index_pulse_storage mmio) (Z.of_nat index)).
Proof. apply soc_sync_encoder. Qed.

Lemma X12_storage_reaches_flags_one_tick_later_witness :
  let st := {| encoder := registers false 7 false false false 2 0 0;
               encoder_counter_status := 0 |} in
  let mmio := {| reset_storage := 1; encoder_index_enable_storage := 4;
                 encoder_reset_index_pulse_storage := 0 |} in
  let e' := encoder (soc_sync false mmio 2 (config_of 0 None None)
                       (pads_of true false false) st) in
  index_enable e' = true.
Proof.
  cbv zeta.
  pose proof (X12_storage_reaches_flags_one_tick_later false
                {| reset_storage := 1; encoder_index_enable_storage := 4;
                   encoder_reset_index_pulse_storage := 0 |}
                2 (config_of 0 None None) (pads_of true false false)
                {| encoder := registers false 7 false false false 2 0 0;
                   encoder_counter_status := 0 |}) as H.
  cbv zeta in H. destruct H as [_ [_ [_ [_ [_ [_ [H _]]]]]]].
  rewrite (H eq_refl). reflexivity.
Defined.

(** X13: a host reset reaches the counter on the second tick: when the low
    bit of the reset storage is set during one tick and the next tick has
    no count-enable edge, that next tick ends with the counter at
    [reset_value] (as a signed 32-bit number), and the tick after it shows
    that value in the counter status register.  For either statement
    order. *)
Theorem X13_host_reset_takes_two_ticks
  parent_first mmio1 mmio2 mmio3 index cfg pads1 pads2 pads3 st :
  Z.testbit (reset_storage mmio1) 0 = true ->
  let st1 := soc_sync parent_first mmio1 index cfg pads1 st in
  count_ena (encoder st1) = false ->
  let st2 := soc_sync parent_first mmio2 index cfg pads2 st1 in
  let st3 := soc_sync parent_first mmio3 index cfg pads3 st2 in
  counter (encoder st2) = to_signed COUNTER_SIZE (reset_value cfg) /\
  to_signed COUNTER_SIZE (encoder_counter_status st3) =
    to_signed COUNTER_SIZE (reset_value cfg).
Proof.
  intros Hbit st1 Hen st2 st3.
  assert (H2 : counter (encoder st2) =
               to_signed COUNTER_SIZE (reset_value cfg)).
  { pose proof (soc_sync_encoder parent_first mmio1 index cfg pads1 st) as H1.
    cbv zeta in H1. fold st1 in H1.
    destruct H1 as [_ [_ [_ [_ [_ [Hr _]]]]]].
    pose proof (soc_sync_encoder parent_first mmio2 index cfg pads2 st1) as H.
    cbv zeta in H. fold st2 in H. destruct H as [Hc _].
    rewrite Hc, sync_counter. unfold count_event, counter_kept, reset_trigger.
    rewrite Hen, Hr. unfold to_bit. rewrite Hbit. reflexivity. }
  split; [exact H2|].
  unfold st3, soc_sync. cbn [encoder_counter_status].
  rewrite to_signed_to_unsigned, H2.
  apply to_signed_int32, to_signed_range.
Qed.

Lemma X13_host_reset_takes_two_ticks_witness :
  let mmio := {| reset_storage := 1; encoder_index_enable_storage := 0;
                 encoder_reset_index_pulse_storage := 0 |} in
  let cfg := config_of 5 None None in
  let quiet := pads_of false false false in
  let st := {| encoder := registers false 33 false false false 0 0 0;
               encoder_counter_status := 33 |} in
  counter
    (encoder (soc_sync true mmio 0 cfg quiet (soc_sync true mmio 0 cfg quiet st)))
  = 5.
Proof.
  cbv zeta.
  pose proof (X13_host_reset_takes_two_ticks true
                {| reset_storage := 1; encoder_index_enable_storage := 0;
                   encoder_reset_index_pulse_storage := 0 |}
                {| reset_storage := 1; encoder_index_enable_storage := 0;
                   encoder_reset_index_pulse_storage := 0 |}
                {| reset_storage := 1; encoder_index_enable_storage := 0;
                   encoder_reset_index_pulse_storage := 0 |}
                0%nat (config_of 5 None None)
                (pads_of false false false) (pads_of false false false)
                (pads_of false false false)
                {| encoder := registers false 33 false false false 0 0 0;
                   encoder_counter_status := 33 |}
                eq_refl eq_refl) as H.
  cbv zeta in H. destruct H as [H _]. rewrite H. reflexivity.
Defined.

(** * Properties of [add_connection] *)

Section ConnectionsProperties.

Variable SoC : Type.
Variable add_etherbone : SoC -> Connection -> SoC * option Exception.
Variable add_spi : SoC -> Connection -> SoC * option Exception.

Lemma lookup_unknown (t : string) :
  t <> "etherbone"%string -> t <> "spi"%string ->
  lookup t (CONNECTION_MAPPING SoC add_etherbone add_spi) = None.
Proof.
  intros H1 H2. unfold CONNECTION_MAPPING. cbn [lookup].
  apply String.eqb_neq in H1, H2. rewrite H1, H2. reflexivity.
Qed.

Lemma add_connection_loop_all_added config todo : forall soc,
  all_added SoC add_etherbone add_spi todo soc ->
  add_connection_loop SoC add_etherbone add_spi config todo soc =
    (added SoC add_etherbone add_spi todo soc, None).
Proof.
  induction todo as [|c rest IH]; intros soc H; [reflexivity|].
  cbn [add_connection_loop added all_added] in *.
  destruct (lookup (connection_type c)
              (CONNECTION_MAPPING SoC add_etherbone add_spi)) as [add|];
    [|contradiction].
  destruct H as [Hnone Hrest].
  destruct (add soc c) as [soc' e] eqn:E. cbn [fst snd] in *. subst e.
  apply IH. exact Hrest.
Qed.

Lemma add_connection_loop_no_error config todo : forall soc,
  snd (add_connection_loop SoC add_etherbone add_spi config todo soc) = None ->
  all_added SoC add_etherbone add_spi todo soc.
Proof.
  induction todo as [|c rest IH]; intros soc H; [exact I|].
  cbn [add_connection_loop all_added] in *.
  destruct (lookup (connection_type c)
              (CONNECTION_MAPPING SoC add_etherbone add_spi)) as [add|].
  - destruct (add soc c) as [soc' [e|]] eqn:E; cbn [fst snd] in *;
      [discriminate|].
    split; [reflexivity|]. apply IH. exact H.
  - destruct (connection config); discriminate.
Qed.

Lemma add_connection_loop_app config pre : forall todo soc,
  all_added SoC add_etherbone add_spi pre soc ->
  add_connection_loop SoC add_etherbone add_spi config (pre ++ todo) soc =
  add_connection_loop SoC add_etherbone add_spi config todo
    (added SoC add_etherbone add_spi pre soc).
Proof.
  induction pre as [|c rest IH]; intros todo soc H; [reflexivity|].
  cbn [app add_connection_loop added all_added] in *.
  destruct (lookup (connection_type c)
              (CONNECTION_MAPPING SoC add_etherbone add_spi)) as [add|];
    [|contradiction].
  destruct H as [Hnone Hrest].
  destruct (add soc c) as [soc' e] eqn:E. cbn [fst snd] in *. subst e.
  apply IH. exact Hrest.
Qed.

(** X14: [add_connection] raises nothing exactly when every connection of
    the configuration is of type etherbone or spi and none of the calls
    raises; the SoC is then the result of the calls made one after the other
    in the order of the list. *)
Theorem X14_add_connection_succeeds_iff_all_known soc config :
  (snd (add_connection SoC add_etherbone add_spi soc config) = None <->
   all_added SoC add_etherbone add_spi (connections config) soc) /\
  (all_added SoC add_etherbone add_spi (connections config) soc ->
   add_connection SoC add_etherbone add_spi soc config =
     (added SoC add_etherbone add_spi (connections config) soc, None)).
Proof.
  unfold add_connection. split; [split|].
  - apply add_connection_loop_no_error.
  - intros H. rewrite add_connection_loop_all_added by exact H. reflexivity.
  - apply add_connection_loop_all_added.
Qed.

(** X15: at the first connection of unknown type [add_connection] stops with
    an exception: the connections before it have been added and stay added,
    the ones after it are not looked at.  The exception is a [KeyError] whose
    message names the type of [config.connection], not the type that was
    not found, and an [AttributeError] when the configuration has no
    attribute [connection]. *)
Theorem X15_unknown_connection_type_stops_midway soc config pre c post :
  connections config = pre ++ c :: post ->
  all_added SoC add_etherbone add_spi pre soc ->
  connection_type c <> "etherbone"%string ->
  connection_type c <> "spi"%string ->
  add_connection SoC add_etherbone add_spi soc config =
    (added SoC add_etherbone add_spi pre soc,
     Some match connection config with
          | None => AttributeError "connection"
          | Some other =>
              KeyError ("Unknown connection type '"
                        ++ connection_type other ++ "'")
          end).
Proof.
  intros Hc Hpre H1 H2. unfold add_connection.
  rewrite Hc, add_connection_loop_app by exact Hpre.
  cbn [add_connection_loop]. rewrite lookup_unknown by assumption.
  destruct (connection config); reflexivity.
Qed.

(** X16: when the call for a connection raises, [add_connection] stops with
    that exception and the SoC as that call left it; the connections after
    it are not added. *)
Theorem X16_raising_call_stops_add_connection
  soc config pre c post add soc' e :
  connections config = pre ++ c :: post ->
  all_added SoC add_etherbone add_spi pre soc ->
  lookup (connection_type c) (CONNECTION_MAPPING SoC add_etherbone add_spi)
    = Some add ->
  add (added SoC add_etherbone add_spi pre soc) c = (soc', Some e) ->
  add_connection SoC add_etherbone add_spi soc config = (soc', Some e).
Proof.
  intros Hc Hpre Hl Hadd. unfold add_connection.
  rewrite Hc, add_connection_loop_app by exact Hpre.
  cbn [add_connection_loop]. rewrite Hl, Hadd. reflexivity.
Qed.

End ConnectionsProperties.

Lemma X14_add_connection_succeeds_iff_all_known_witness :
  let eth := fun (soc : list string) (_ : Connection) =>
               (soc ++ ["etherbone"%string], @None Exception) in
  let spi := fun (soc : list string) (_ : Connection) =>
               (soc ++ ["spi"%string], @None Exception) in
  let config := {| connections := [ {| connection_type := "spi" |};
                                    {| connection_type := "etherbone" |} ];
                   connection := None |} in
  add_connection (list string) eth spi [] config =
    (["spi"%string; "etherbone"%string], None).
Proof.
  cbv zeta.
  apply (proj2 (X14_add_connection_succeeds_iff_all_known (list string)
                  (fun soc _ => (soc ++ ["etherbone"%string], None))
                  (fun soc _ => (soc ++ ["spi"%string], None))
                  []
                  {| connections := [ {| connection_type := "spi" |};
                                      {| connection_type := "etherbone" |} ];
                     connection := None |})).
  cbn. repeat split.
Defined.

Lemma X15_unknown_connection_type_stops_midway_witness :
  let eth := fun (soc : list string) (_ : Connection) =>
               (soc ++ ["etherbone"%string], @None Exception) in
  let spi := fun (soc : list string) (_ : Connection) =>
               (soc ++ ["spi"%string], @None Exception) in
  let config := {| connections := [ {| connection_type := "spi" |};
                                    {| connection_type := "usb" |};
                                    {| connection_type := "etherbone" |} ];
                   connection := None |} in
  add_connection (list string) eth spi [] config =
    (["spi"%string], Some (AttributeError "connection")).
Proof.
  cbv zeta.
  apply (X15_unknown_connection_type_stops_midway (list string)
           (fun soc _ => (soc ++ ["etherbone"%string], None))
           (fun soc _ => (soc ++ ["spi"%string], None))
           []
           {| connections := [ {| connection_type := "spi" |};
                               {| connection_type := "usb" |};
                               {| connection_type := "etherbone" |} ];
              connection := None |}
           [ {| connection_type := "spi" |} ]
           {| connection_type := "usb" |}
           [ {| connection_type := "etherbone" |} ]).
  - reflexivity.
  - cbn. repeat split.
  - cbn. discriminate.
  - cbn. discriminate.
Defined.

Lemma X16_raising_call_stops_add_connection_witness :
  let eth := fun (soc : list string) (_ : Connection) =>
               (soc ++ ["etherbone"%string], @None Exception) in
  let spi := fun (soc : list string) (_ : Connection) =>
               (soc ++ ["spi?"%string], Some (Raised "no SPI pins")) in
  let config := {| connections := [ {| connection_type := "etherbone" |};
                                    {| connection_type := "spi" |};
                                    {| connection_type := "etherbone" |} ];
                   connection := None |} in
  add_connection (list string) eth spi [] config =
    (["etherbone"%string; "spi?"%string], Some (Raised "no SPI pins")).
Proof.
  cbv zeta.
  apply (X16_raising_call_stops_add_connection (list string)
           (fun soc _ => (soc ++ ["etherbone"%string], None))
           (fun soc _ => (soc ++ ["spi?"%string], Some (Raised "no SPI pins")))
           []
           {| connections := [ {| connection_type := "etherbone" |};
                               {| connection_type := "spi" |};
                               {| connection_type := "etherbone" |} ];
              connection := None |}
           [ {| connection_type := "etherbone" |} ]
           {| connection_type := "spi" |}
           [ {| connection_type := "etherbone" |} ]
           (fun soc _ => (soc ++ ["spi?"%string], Some (Raised "no SPI pins")))).
  - reflexivity.
  - cbn. repeat split.
  - reflexivity.
  - reflexivity.
Defined.

(** * Quadrature steps and the register areas *)

(** X3: one quadrature step forward, the pair (A, B) going to (not B, A),
    is decoded two ticks later as a count-enable edge with direction up; one
    step backward, (A, B) going to (B, not A), as a count-enable edge with
    direction down; two equal samples as no edge.  This holds whatever the
    registers held before the three ticks. *)
Theorem X3_quadrature_steps_are_decoded cfg trace i1 i2 i3 s :
  let s' := run cfg (trace ++ [i1; i2; i3]) s in
  let A1 := pin_A (snd i1) in
  let B1 := pin_B (snd i1) in
  let A2 := pin_A (snd i2) in
  let B2 := pin_B (snd i2) in
  (A2 = negb B1 -> B2 = A1 -> count_ena s' = true /\ count_dir s' = true) /\
  (A2 = B1 -> B2 = negb A1 -> count_ena s' = true /\ count_dir s' = false) /\
  (A2 = A1 -> B2 = B1 -> count_ena s' = false).
Proof.
  cbv zeta. rewrite run_app.
  destruct (histories_after_three_ticks cfg i1 i2 i3 (run cfg trace s))
    as [HA [HB _]].
  unfold count_ena, count_dir, bit. rewrite HA, HB.
  change 1 with (Z.of_nat 1). change 2 with (Z.of_nat 2).
  rewrite !Cat_testbit. cbn [nth].
  split; [|split]; intros -> ->;
    destruct (pin_A (snd i1)), (pin_B (snd i1)); repeat split.
Qed.

Lemma X3_quadrature_steps_are_decoded_witness :
  let s' := run (config_of 0 None None)
              ([] ++ [(no_write, pads_of true false false);
                      (no_write, pads_of true true false);
                      (no_write, pads_of false true false)])
              (registers false 0 false false false 5 6 7) in
  count_ena s' = true /\ count_dir s' = true.
Proof.
  cbv zeta.
  apply (proj1 (X3_quadrature_steps_are_decoded (config_of 0 None None) []
                  (no_write, pads_of true false false)
                  (no_write, pads_of true true false)
                  (no_write, pads_of false true false)
                  (registers false 0 false false false 5 6 7)));
    reflexivity.
Defined.

Lemma counter_sizes_sum (n : nat) : forall start,
  fold_right Z.add 0 (map (fun _ => COUNTER_SIZE) (seq start n)) =
  32 * Z.of_nat n.
Proof.
  induction n as [|n IH]; intros start; [reflexivity|].
  cbn [seq map fold_right]. rewrite IH. unfold COUNTER_SIZE. lia.
Qed.

(** X17: for a configuration with N >= 1 instances the status registers
    are the index-pulse word and N counters of 32 bits, the storage
    registers the two flag words, no call raises, and both areas are whole
    32-bit words: with k the least number of words that hold N bits, the
    status area has 32 * (k + N) bits and the storage area 32 * 2k.  A
    configuration with no instance is not skipped: both calls ask for a
    register of size 0, raise and create nothing.  Without a configuration
    nothing is created and nothing raised. *)
Theorem X17_register_areas_are_whole_words config :
  let n := Z.of_nat (List.length (instances config)) in
  ((1 <= List.length (instances config))%nat ->
   exists k r w,
     32 * (k - 1) < n <= 32 * k /\
     add_mmio_read_registers (Some config) = (Some r, None) /\
     add_mmio_write_registers (Some config) = (Some w, None) /\
     List.length (encoder_counter_size r) = List.length (instances config) /\
     Forall (fun size => size = 32) (encoder_counter_size r) /\
     encoder_index_pulse_size r + fold_right Z.add 0 (encoder_counter_size r)
       = 32 * (k + n) /\
     encoder_index_enable_size w + encoder_reset_index_pulse_size w
       = 32 * (2 * k)) /\
  (instances config = [] ->
   exists e1 e2,
     add_mmio_read_registers (Some config) = (None, Some e1) /\
     add_mmio_write_registers (Some config) = (None, Some e2)) /\
  add_mmio_read_registers None = (None, None) /\
  add_mmio_write_registers None = (None, None).
Proof.
  intros n. split; [|split; [|split; reflexivity]].
  - intros Hn.
    destruct (packed_size_ceiling config) as [k [Hk Hkn]]. fold n in Hkn.
    assert (Hcsr : new_CSR (packed_size config) = inr (packed_size config))
      by (apply new_CSR_positive; lia).
    exists k. eexists. eexists.
    split; [exact Hkn|].
    unfold add_mmio_read_registers, add_mmio_write_registers.
    rewrite Hcsr.
    split; [reflexivity|]. split; [reflexivity|].
    cbn [encoder_counter_size encoder_index_pulse_size
         encoder_index_enable_size encoder_reset_index_pulse_size].
    split; [|split; [|split]].
    + rewrite length_map, length_seq. reflexivity.
    + apply Forall_forall. intros x Hx. apply in_map_iff in Hx.
      destruct Hx as [? [<- _]]. reflexivity.
    + rewrite counter_sizes_sum, Hk. fold n. lia.
    + rewrite Hk. lia.
  - intros Hnil.
    unfold add_mmio_read_registers, add_mmio_write_registers, packed_size.
    rewrite Hnil. cbn. eexists. eexists. split; reflexivity.
Qed.

Lemma X17_register_areas_are_whole_words_witness :
  exists r w,
    add_mmio_read_registers (Some forty_encoders) = (Some r, None) /\
    add_mmio_write_registers (Some forty_encoders) = (Some w, None) /\
    encoder_index_pulse_size r + fold_right Z.add 0 (encoder_counter_size r)
      = 32 * 42.
Proof.
  assert (H1 : (1 <= List.length (instances forty_encoders))%nat)
    by (vm_compute; lia).
  destruct (proj1 (X17_register_areas_are_whole_words forty_encoders) H1)
    as [k [r [w [Hk [Hr [Hw [_ [_ [Hsum _]]]]]]]]].
  exists r, w. split; [exact Hr|]. split; [exact Hw|].
  rewrite Hsum.
  change (Z.of_nat (List.length (instances forty_encoders))) with 40 in *.
  lia.
Defined.
